(** * The smart-card protocol bridge of server-5.py and server-4.py

    A shallow embedding of the [handle_client] coroutine of the two
    dispatcher variants ([src/server-5.py], the variant with the softoken
    backend and the warm-up gate, and [src/server-4.py], the variant without
    a backend), of [handle_apdu], and of the inline frame construction
    [tag.to_bytes(2, 'big') + len(p).to_bytes(2, 'big') + p]; then of the
    start-up and shut-down code ([get_library_path], [load_library],
    [unload_library] and [main] of server-5.py, [main] of server-4.py) and
    of the [echo] handlers of [src/server-2.py] and [src/server-3.py].

    Conventions of the model:
    - a Python [bytes] value is a [list byte]; a Python [int] is a [Z];
    - a clock reading ([time.time()], a Python float) is a binary64
      [float], subtracted and compared with the IEEE operations Python uses;
    - what a handler does to the outside world is recorded in a trace of
      events: a frame handed to [websocket.send], a call of the foreign
      function [SendApdu_softToken];
    - Python exceptions are values of [exn], threaded by the monad [M];
    - the peer is part of the input: every turn of a receive loop says how
      its [recv] ends and how its [send], if one is made, ends;
    - what the start-up code needs from the machine (the platform name, the
      file system, the loader, the unloading calls, the server) is a record
      [Lifecycle.host], and what it does to the machine a log of actions;
    - console output is not modelled. *)

From Stdlib Require Import ZArith List Bool Lia Floats.
From Stdlib.Strings Require Import String Ascii Byte.
Import ListNotations.
Local Open Scope Z_scope.

(** ** Bytes and integers *)

Definition bytes := list byte.

(** [b[i]] of a [bytes] object is an [int] in [0, 256). *)
Definition byte_to_int (b : byte) : Z := Z.of_N (Byte.to_N b).

(** The byte of an integer in [0, 256); [x00] is never produced for such an
    integer other than [0]. *)
Definition int_to_byte (n : Z) : byte :=
  match Byte.of_N (Z.to_N n) with
  | Some b => b
  | None => x00
  end.

(** [len(b)] *)
Definition len {A : Type} (l : list A) : Z := Z.of_nat (List.length l).

(** Python exceptions the handlers can meet. *)
Inductive exn : Type :=
| OverflowError          (* int.to_bytes: "int too big to convert" / negative *)
| ForeignCallError       (* anything raised while calling into the softoken library *)
| ConnectionClosedError  (* websockets.exceptions.ConnectionClosedError *)
| ConnectionClosedOK.    (* websockets.exceptions.ConnectionClosedOK *)

Inductive result (A : Type) : Type :=
| Ret (a : A)
| Raise (e : exn).
Arguments Ret {A} a.
Arguments Raise {A} e.

(** Digits of [n] in base 256, least significant first, [length] of them. *)
Fixpoint digits_le (length : nat) (n : Z) : bytes :=
  match length with
  | O => []
  | S k => int_to_byte (n mod 256) :: digits_le k (n / 256)
  end.

(** [n.to_bytes(length, byteorder='big')] (unsigned): raises [OverflowError]
    when [n] is negative or does not fit in [length] bytes. *)
Definition to_bytes (n : Z) (length : nat) : result bytes :=
  if (n <? 0) || (256 ^ Z.of_nat length <=? n)
  then Raise OverflowError
  else Ret (rev (digits_le length n)).

(** [int.from_bytes(b, 'big')]: the value of a big-endian digit string. *)
Definition from_bytes (b : bytes) : Z :=
  fold_left (fun acc d => acc * 256 + byte_to_int d) b 0.

(** [a[:stop]] on a sequence: a negative [stop] counts from the end, and the
    bound is clipped to [0, len(a)]. *)
Definition slice_to {A : Type} (a : list A) (stop : Z) : list A :=
  let stop' := if stop <? 0 then Z.max 0 (stop + len a) else Z.min stop (len a) in
  firstn (Z.to_nat stop') a.

(** [a[start::]] for a non-negative [start]. *)
Definition slice_from {A : Type} (a : list A) (start : nat) : list A :=
  skipn start a.

(** ** The world a handler acts on *)

(** What a handler does that is visible outside it. *)
Inductive event : Type :=
| Sent (frame : bytes)        (* await websocket.send(frame) *)
| SendApdu (command : bytes). (* softoken.SendApdu_softToken(command, ...) *)

(** Outcome of the foreign call [SendApdu_softToken]: it raises, or it
    returns having written [written] at the start of the response buffer and
    stored [response_len] through the length pointer. *)
Inductive ffi_return : Type :=
| FfiRaised
| FfiReturned (written : bytes) (response_len : Z).

Record world (card : Type) : Type := mkWorld
  { softoken : card;        (* state of the loaded softoken library *)
    trace : list event }.   (* events so far, oldest first *)
Arguments mkWorld {card} softoken trace.
Arguments softoken {card} w.
Arguments trace {card} w.

(** The frames handed to [websocket.send], oldest first. *)
Fixpoint frames_sent (tr : list event) : list bytes :=
  match tr with
  | [] => []
  | Sent f :: tr' => f :: frames_sent tr'
  | SendApdu _ :: tr' => frames_sent tr'
  end.

(** The commands handed to the foreign function, oldest first. *)
Fixpoint commands_passed (tr : list event) : list bytes :=
  match tr with
  | [] => []
  | Sent _ :: tr' => commands_passed tr'
  | SendApdu c :: tr' => c :: commands_passed tr'
  end.

(** How an [await websocket.send(...)] ends: it returns ([None]), or it
    raises, [ConnectionClosedError] or [ConnectionClosedOK] once the peer is
    gone. *)
Definition send_result (raises : option exn) : result unit :=
  match raises with
  | None => Ret tt
  | Some e => Raise e
  end.

(** ** State and exception monad of the handlers *)

Section Monad.
Context {card : Type}.

Definition M (A : Type) : Type := world card -> world card * result A.

Definition ret {A : Type} (a : A) : M A := fun w => (w, Ret a).

Definition raise {A : Type} (e : exn) : M A := fun w => (w, Raise e).

Definition bind {A B : Type} (c : M A) (k : A -> M B) : M B :=
  fun w =>
    match c w with
    | (w', Ret a) => k a w'
    | (w', Raise e) => (w', Raise e)
    end.

(** A pure computation that may raise. *)
Definition lift {A : Type} (r : result A) : M A := fun w => (w, r).

(** [try: c  except Exception as e: h e] *)
Definition try_except {A : Type} (c : M A) (h : exn -> M A) : M A :=
  fun w =>
    match c w with
    | (w', Ret a) => (w', Ret a)
    | (w', Raise e) => h e w'
    end.

Definition log (e : event) : M unit :=
  fun w => (mkWorld (softoken w) (trace w ++ [e]), Ret tt).

(** [await websocket.send(response)]: the frame is handed to the
    transport, and the call returns or raises as [raises] says (see
    [send_result]). *)
Definition send (raises : option exn) (response : bytes) : M unit :=
  fun w => (mkWorld (softoken w) (trace w ++ [Sent response]), send_result raises).
End Monad.

Declare Scope py_scope.
Delimit Scope py_scope with py.
Notation "x <- c ;; k" := (bind c (fun x => k))
  (at level 61, c at next level, right associativity) : py_scope.
Notation "c ;; k" := (bind c (fun _ => k))
  (at level 61, right associativity) : py_scope.
Local Open Scope py_scope.

(** ** Frames *)

(** The expression every response is built by (server-5.py lines 151-155,
    162-166 and 185-189):
    [tag.to_bytes(2, 'big') + len(payload).to_bytes(2, 'big') + payload]. *)
Definition encode (tag : Z) (payload : bytes) : result bytes :=
  match to_bytes tag 2 with
  | Raise e => Raise e
  | Ret t =>
      match to_bytes (len payload) 2 with
      | Raise e => Raise e
      | Ret l => Ret (t ++ l ++ payload)
      end
  end.

(** [message[1] if len(message) > 1 else None] *)
Definition tag_recvd_of (message : bytes) : option Z :=
  match message with
  | _ :: b :: _ => Some (byte_to_int b)
  | _ => None
  end.

(** The default response [b'\x00\x02\x6d\x82']. *)
Definition default_response : bytes := [x00; x02; x6d; x82].

(** The encode invariant of a frame laid out as tag (bytes 0-1), length
    (bytes 2-3), payload (bytes 4..): the length field counts the payload. *)
Definition length_field_ok (frame : bytes) : bool :=
  match frame with
  | _ :: _ :: l0 :: l1 :: payload => from_bytes [l0; l1] =? len payload
  | _ => false
  end.

(** A truncated frame: the length field at bytes 2-3 is present and
    declares more payload bytes than follow it. *)
Definition truncated (message : bytes) : bool :=
  match message with
  | _ :: _ :: l0 :: l1 :: payload => len payload <? from_bytes [l0; l1]
  | _ => false
  end.

(** The payload of a frame under the wire layout: the bytes from index 4. *)
Definition frame_payload (message : bytes) : bytes := skipn 4 message.

(** ** What the receive loop is fed *)

(** A message delivered by [websocket.recv()]: [bytes] for a binary
    message, [str] for a text message. *)
Inductive message : Type :=
| Binary (data : bytes)
| Text (data : string).

(** How one [await websocket.recv()] ends. *)
Inductive recv_outcome : Type :=
| Received (m : message)
| ReceivedNone
| RecvRaised (e : exn).

(** One turn of [while not break_loop]: the value of the global flag when
    the loop tests it, how [recv] ends, what [time.time()] reads during
    the turn, and how the [websocket.send] of the turn ends if one is made
    ([None]: it returns). *)
Record iteration : Type := mkIteration
  { break_loop : bool;
    recv : recv_outcome;
    time_time : float;
    send_raises : option exn }.

(** A turn in which a binary message arrives while the flag is down. *)
Definition binary_turn (now : float) (raises : option exn) (data : bytes) : iteration :=
  mkIteration false (Received (Binary data)) now raises.

(** A turn in which a binary message arrives and the answer, if one is
    made, is sent: [send] returns. *)
Definition binary_at (now : float) (data : bytes) : iteration :=
  binary_turn now None data.

(** Where the coroutine stands once its input is used up: suspended in
    [websocket.recv()], or finished (returned or raised), after which the
    websockets library closes the connection. *)
Inductive session_state : Type :=
| AWAITING_FRAME
| CLOSED.

(** * server-5.py *)

Module Server5.
Section WithToken.
(** The loaded library and the module global [start_time]. *)
Variable card : Type.
Variable SendApdu_softToken : card -> bytes -> card * ffi_return.
Variable start_time : float.

(** [(ctypes.c_ubyte * 10000)()] after the foreign call: zero-initialised,
    10000 bytes, with what the library wrote at its start. *)
Definition response_capacity : nat := Z.to_nat 10000.

Definition response_buffer (written : bytes) : bytes :=
  firstn response_capacity (written ++ repeat x00 response_capacity).

Definition handle_apdu (apdu_command : bytes) : M (card := card) bytes :=
  fun w =>
    let w1 := mkWorld (softoken w) (trace w ++ [SendApdu apdu_command]) in
    match SendApdu_softToken (softoken w1) apdu_command with
    | (c', FfiReturned written response_len) =>
        (mkWorld c' (trace w1),
         Ret (slice_to (response_buffer written) response_len))
    | (c', FfiRaised) =>
        (mkWorld c' (trace w1), Raise ForeignCallError)   (* print; raise *)
    end.

(** The body of [if isinstance(message, bytes):]. *)
Definition handle_message (now : float) (raises : option exn) (message : bytes)
  : M (card := card) unit :=
  let tag_recvd := tag_recvd_of message in
  match tag_recvd with
  | Some tag_recvd =>
      if tag_recvd =? 91 then
        let random_data := [x55; x55; x55; x55] in
        t <- lift (to_bytes tag_recvd 2) ;;
        l <- lift (to_bytes (len random_data) 2) ;;
        let response := t ++ l ++ random_data in
        send raises response
      else if tag_recvd =? 87 then
        let atr := [x3f; x95; x13; x81; x01; x80; x73; xff; x01; x00; x0b] in
        let tag_sent := 88 in
        t <- lift (to_bytes tag_sent 2) ;;
        l <- lift (to_bytes (len atr) 2) ;;
        let response := t ++ l ++ atr in
        send raises response
      else if tag_recvd =? 89 then
        let elapsed_time := PrimFloat.sub now start_time in
        let tag_sent := 90 in
        resp <- (if PrimFloat.leb elapsed_time 5%float then
                   ret [x6d; x82]
                 else
                   let apdu_command := slice_from message 2 in
                   try_except (handle_apdu apdu_command)
                              (fun _ => ret [x6d; x82])) ;;
        t <- lift (to_bytes tag_sent 2) ;;
        l <- lift (to_bytes (len resp) 2) ;;
        let response := t ++ l ++ resp in
        send raises response
      else if existsb (Z.eqb tag_recvd) [83; 81] then
        ret tt
      else if tag_recvd =? 85 then
        ret tt
      else
        send raises default_response
  | None =>
      (* None equals no tag: the else branch *)
      send raises default_response
  end.

(** The [while not break_loop:] loop, fed with the turns it takes. *)
Fixpoint receive_loop (turns : list iteration) : M (card := card) session_state :=
  match turns with
  | [] => ret AWAITING_FRAME
  | turn :: rest =>
      if break_loop turn then ret CLOSED
      else
        match recv turn with
        | RecvRaised e => raise e
        | ReceivedNone => ret CLOSED                 (* break *)
        | Received (Text _) => receive_loop rest
        | Received (Binary data) =>
            handle_message (time_time turn) (send_raises turn) data ;;
            receive_loop rest
        end
  end.

(** [handle_client]: the loop inside
    [try: ... except websockets.exceptions.ConnectionClosedError]. *)
Definition handle_client (turns : list iteration) : M (card := card) session_state :=
  fun w =>
    match receive_loop turns w with
    | (w', Raise ConnectionClosedError) => (w', Ret CLOSED)
    | other => other
    end.
End WithToken.
End Server5.

(** * server-4.py *)

Module Server4.
(** server-4.py has no backend: its world carries no library state. *)
Definition handle_message (raises : option exn) (message : bytes)
  : M (card := unit) unit :=
  let tag_recvd := tag_recvd_of message in
  match tag_recvd with
  | Some tag_recvd =>
      if tag_recvd =? 91 then
        let random_data := [x55; x55; x55; x55] in
        t <- lift (to_bytes tag_recvd 2) ;;
        l <- lift (to_bytes (len random_data) 2) ;;
        let response := t ++ l ++ random_data in
        send raises response
      else if tag_recvd =? 87 then
        let atr := [x3f; x95; x13; x81; x01; x80; x73; xff; x01; x00; x0b] in
        let tag_sent := 88 in
        t <- lift (to_bytes tag_sent 2) ;;
        l <- lift (to_bytes (len atr) 2) ;;
        let response := t ++ l ++ atr in
        send raises response
      else if tag_recvd =? 89 then
        let resp := [x6d; x82] in
        let tag_sent := 90 in
        t <- lift (to_bytes tag_sent 2) ;;
        l <- lift (to_bytes (len resp) 2) ;;
        let response := t ++ l ++ resp in
        send raises response
      else if existsb (Z.eqb tag_recvd) [83; 81] then
        ret tt
      else if tag_recvd =? 85 then
        ret tt
      else
        send raises default_response
  | None =>
      send raises default_response
  end.

Fixpoint receive_loop (turns : list iteration) : M (card := unit) session_state :=
  match turns with
  | [] => ret AWAITING_FRAME
  | turn :: rest =>
      if break_loop turn then ret CLOSED
      else
        match recv turn with
        | RecvRaised e => raise e
        | ReceivedNone => ret CLOSED
        | Received (Text _) => receive_loop rest
        | Received (Binary data) => handle_message (send_raises turn) data ;; receive_loop rest
        end
  end.

Definition handle_client (turns : list iteration) : M (card := unit) session_state :=
  fun w =>
    match receive_loop turns w with
    | (w', Raise ConnectionClosedError) => (w', Ret CLOSED)
    | other => other
    end.
End Server4.

(** The state a session is left in by a run of [handle_client]: an exception
    that leaves the coroutine ends the session. *)
Definition state_after {card : Type} (r : world card * result session_state)
  : session_state :=
  match snd r with
  | Ret s => s
  | Raise _ => CLOSED
  end.

(** * The frame decoder of the specification *)

Module Codec.


End Codec.

(** * Tokens used to run the model *)

(** A token that answers a command with the command followed by the status
    word 90 00; its state counts the calls. *)
Definition echo_token (calls : nat) (command : bytes) : nat * ffi_return :=
  (S calls, FfiReturned (command ++ [x90; x00]) (len command + 2)).

(** A token whose call always raises. *)
Definition faulty_token (calls : nat) (command : bytes) : nat * ffi_return :=
  (S calls, FfiRaised).

(** A token that writes one byte and reports a length of three. *)
Definition padding_token (calls : nat) (command : bytes) : nat * ffi_return :=
  (S calls, FfiReturned [x61] 3).

(** A token that writes three bytes and reports the length -9998. *)
Definition negative_token (calls : nat) (command : bytes) : nat * ffi_return :=
  (S calls, FfiReturned [x61; x62; x63] (-9998)).

(** A fresh world: token never called, nothing sent. *)
Definition fresh : world nat := mkWorld 0%nat [].

Definition fresh4 : world unit := mkWorld tt [].

(** Process start at 1730000000 s; readings 2 s and 60 s later. *)
Definition t_start : float := 1730000000%float.
Definition t_warm : float := 1730000002%float.
Definition t_late : float := 1730000060%float.

(** The world once [frame] has been handed to [websocket.send]. *)
Definition after_send {card : Type} (w : world card) (frame : bytes) : world card :=
  mkWorld (softoken w) (trace w ++ [Sent frame]).

(** The routing bytes the dispatcher names. *)
Definition routed_tags : list Z := [91; 87; 89; 83; 81; 85].

(** The routing bytes answered by a frame built as tag, length, payload. *)
Definition answered_tags : list Z := [91; 87; 89].

(** The routing bytes the dispatcher passes over in silence. *)
Definition silent_tags : list Z := [83; 81; 85].

Definition is_silent (tag_recvd : option Z) : bool :=
  match tag_recvd with
  | Some t => existsb (Z.eqb t) silent_tags
  | None => false
  end.

(** What a sent frame looks like: it keeps the encode invariant, or it is
    the fixed default response. *)
Definition frame_shape (frame : bytes) : Prop :=
  length_field_ok frame = true \/ frame = default_response.

(** * server-5.py and server-4.py: start-up and shut-down *)

Module Lifecycle.

(** The exceptions of the start-up and shut-down code, by the place that
    raises them. *)
Inductive py_exn : Type :=
| OSError_unsupported (system : string)   (* OSError("Unsupported operating system: ...") *)
| FileNotFoundError_lib (lib_path system : string)
| OSError_ctypes                          (* ctypes.CDLL could not load the file *)
| AttributeError_symbol                   (* the library lacks init_softToken or SendApdu_softToken *)
| AttributeError_dlclose                  (* AttributeError("dlclose not found in libc") *)
| OSError_unload                          (* OSError("Failed to unload library: ...") *)
| RuntimeError_init (result : Z)          (* RuntimeError("Failed to initialize softoken, ...") *)
| OSError_serve                           (* websockets.serve could not listen *)
| CancelledError.                         (* asyncio.CancelledError *)

(** [isinstance(e, Exception)]: [asyncio.CancelledError] derives from
    [BaseException] only. *)
Definition is_Exception (e : py_exn) : bool :=
  match e with
  | CancelledError => false
  | _ => true
  end.

Inductive outcome (A : Type) : Type :=
| Done (a : A)
| Thrown (e : py_exn).
Arguments Done {A} a.
Arguments Thrown {A} e.

(** How [ctypes.CDLL(lib_path)] and the attribute look-ups that follow it
    end. *)
Inductive cdll_outcome (handle : Type) : Type :=
| Loaded (h : handle)
| LoadFails          (* OSError *)
| SymbolMissing.     (* AttributeError *)
Arguments Loaded {handle} h.
Arguments LoadFails {handle}.
Arguments SymbolMissing {handle}.

(** The machine the server runs on. *)
Record host (handle : Type) : Type := mkHost
  { platform_system : string;               (* platform.system() *)
    darwin_lib_path : string;               (* str(Path.home() / "Library" / ... / "libsoftoken.dylib") *)
    os_path_exists : string -> bool;        (* os.path.exists *)
    ctypes_CDLL : string -> cdll_outcome handle;
    init_softToken : handle -> Z;           (* the c_ubyte result *)
    FreeLibrary : handle -> Z;              (* kernel32.FreeLibrary, Windows *)
    libc_loads : bool;                      (* ctypes.CDLL(None) returns *)
    libc_dlclose : option (handle -> Z);    (* None: libc has no attribute dlclose *)
    serve_fails : bool;                     (* websockets.serve raises *)
    wait_cancelled : nat -> bool }.         (* the n-th server.wait_closed() is cancelled *)
Arguments platform_system {handle} h.
Arguments darwin_lib_path {handle} h.
Arguments os_path_exists {handle} h.
Arguments ctypes_CDLL {handle} h.
Arguments init_softToken {handle} h.
Arguments FreeLibrary {handle} h.
Arguments libc_loads {handle} h.
Arguments libc_dlclose {handle} h.
Arguments serve_fails {handle} h.
Arguments wait_cancelled {handle} h.

(** The module globals of server-5.py. *)
Record globals (handle : Type) : Type := mkGlobals
  { break_loop : bool;
    softoken : option handle;
    is_initialized : bool }.
Arguments mkGlobals {handle} break_loop softoken is_initialized.
Arguments break_loop {handle} g.
Arguments softoken {handle} g.
Arguments is_initialized {handle} g.

(** What the code does to the machine. *)
Inductive action (handle : Type) : Type :=
| Act_CDLL (lib_path : string)   (* ctypes.CDLL(lib_path) *)
| Act_init (h : handle)          (* h.init_softToken() *)
| Act_serve                      (* websockets.serve returned: the server accepts connections *)
| Act_wait_closed                (* await server.wait_closed() *)
| Act_FreeLibrary (h : handle)
| Act_dlclose (h : handle)
| Act_close.                     (* server.close() *)
Arguments Act_CDLL {handle} lib_path.
Arguments Act_init {handle} h.
Arguments Act_serve {handle}.
Arguments Act_wait_closed {handle}.
Arguments Act_FreeLibrary {handle} h.
Arguments Act_dlclose {handle} h.
Arguments Act_close {handle}.

Record state (handle : Type) : Type := mkState
  { vars : globals handle;
    log : list (action handle) }.   (* oldest first *)
Arguments mkState {handle} vars log.
Arguments vars {handle} s.
Arguments log {handle} s.

Section Monad.
Context {handle : Type}.

Definition L (A : Type) : Type := state handle -> state handle * outcome A.

Definition ret {A : Type} (a : A) : L A := fun s => (s, Done a).

Definition raise {A : Type} (e : py_exn) : L A := fun s => (s, Thrown e).

Definition bind {A B : Type} (c : L A) (k : A -> L B) : L B :=
  fun s =>
    match c s with
    | (s', Done a) => k a s'
    | (s', Thrown e) => (s', Thrown e)
    end.

Definition lift {A : Type} (o : outcome A) : L A := fun s => (s, o).

(** [try: c  except <class> as e: h e], the class given by [catches]. *)
Definition try_except {A : Type} (catches : py_exn -> bool) (c : L A)
           (h : py_exn -> L A) : L A :=
  fun s =>
    match c s with
    | (s', Done a) => (s', Done a)
    | (s', Thrown e) => if catches e then h e s' else (s', Thrown e)
    end.

(** [try: c  finally: f]: [f] runs however [c] ends; an exception of [f]
    replaces that of [c]. *)
Definition try_finally {A : Type} (c : L A) (f : L unit) : L A :=
  fun s =>
    match c s with
    | (s', r) =>
        match f s' with
        | (s'', Done _) => (s'', r)
        | (s'', Thrown e) => (s'', Thrown e)
        end
    end.

Definition act (a : action handle) : L unit :=
  fun s => (mkState (vars s) (log s ++ [a]), Done tt).

Definition read {A : Type} (field : globals handle -> A) : L A :=
  fun s => (s, Done (field (vars s))).

Definition set_break_loop (b : bool) : L unit :=
  fun s => (mkState (mkGlobals b (softoken (vars s)) (is_initialized (vars s))) (log s),
            Done tt).

Definition set_softoken (h : option handle) : L unit :=
  fun s => (mkState (mkGlobals (break_loop (vars s)) h (is_initialized (vars s))) (log s),
            Done tt).

Definition set_is_initialized (b : bool) : L unit :=
  fun s => (mkState (mkGlobals (break_loop (vars s)) (softoken (vars s)) b) (log s),
            Done tt).
End Monad.

Declare Scope life_scope.
Delimit Scope life_scope with life.
Notation "x <- c ;; k" := (bind c (fun x => k))
  (at level 61, c at next level, right associativity) : life_scope.
Notation "c ;; k" := (bind c (fun _ => k))
  (at level 61, right associativity) : life_scope.
Local Open Scope life_scope.
Local Open Scope string_scope.

Section OnHost.
Variable handle : Type.
Variable os : host handle.

Definition get_library_path : outcome string :=
  let system := platform_system os in
  if String.eqb system "Windows" then
    Done ".\libsoftoken.dll"
  else if String.eqb system "Darwin" then
    Done (darwin_lib_path os)
  else if String.eqb system "Linux" then
    Done "/usr/lib/softoken/libsoftoken.so"
  else
    Thrown (OSError_unsupported system).

Definition load_library : L (handle := handle) handle :=
  lib_path <- lift get_library_path ;;
  if negb (os_path_exists os lib_path) then
    raise (FileNotFoundError_lib lib_path (platform_system os))
  else
    act (Act_CDLL lib_path) ;;
    match ctypes_CDLL os lib_path with
    | Loaded h => ret h
    | LoadFails => raise OSError_ctypes          (* except OSError: print; raise *)
    | SymbolMissing => raise AttributeError_symbol
    end.

Definition unload_library (lib : handle) : L (handle := handle) unit :=
  let system := platform_system os in
  try_finally
    (try_except is_Exception
       ((if String.eqb system "Windows" then
           act (Act_FreeLibrary lib) ;;
           let result := FreeLibrary os lib in
           if Z.eqb result 0 then raise OSError_unload else ret tt
         else if existsb (String.eqb system) ["Darwin"; "Linux"] then
           if negb (libc_loads os) then raise OSError_ctypes
           else
             match libc_dlclose os with
             | None => raise AttributeError_dlclose
             | Some dlclose =>
                 act (Act_dlclose lib) ;;
                 let result := dlclose lib in
                 if negb (Z.eqb result 0) then raise OSError_unload else ret tt
             end
         else
           raise (OSError_unsupported system)) ;;
        set_softoken None)
       (fun _ => ret tt))
    (set_softoken None).

(** [await server.wait_closed()], the [n]-th time. *)
Definition wait_closed (n : nat) : L (handle := handle) unit :=
  act Act_wait_closed ;;
  if wait_cancelled os n then raise CancelledError else ret tt.

(** The first [try] of [main]: [true] when control reaches the line after
    it, [false] when the [except] clause returns from [main]. *)
Definition startup : L (handle := handle) bool :=
  try_except is_Exception
    (initialized <- read is_initialized ;;
     (if negb initialized then
        h <- load_library ;;
        set_softoken (Some h) ;;
        act (Act_init h) ;;
        let result := init_softToken os h in
        if negb (Z.eqb result 0) then raise (RuntimeError_init result)
        else set_is_initialized true
      else ret tt) ;;
     ret true)
    (fun _ => ret false).

(** [server = await websockets.serve(...)] *)
Definition serve : L (handle := handle) unit :=
  if serve_fails os then raise OSError_serve else act Act_serve.

(** [main] of server-5.py. *)
Definition main : L (handle := handle) unit :=
  started <- startup ;;
  if negb started then ret tt
  else
    serve ;;
    try_finally
      (try_except (fun e => match e with CancelledError => true | _ => false end)
         (wait_closed 0)
         (fun _ => set_break_loop true))
      (lib <- read softoken ;;
       (match lib with
        | Some h => try_except is_Exception (unload_library h) (fun _ => ret tt)
        | None => ret tt
        end) ;;
       act Act_close ;;
       wait_closed 1).

(** [main] of server-4.py, which has no library to load. *)
Definition main_server4 : L (handle := handle) unit :=
  serve ;;
  try_finally
    (try_except (fun e => match e with CancelledError => true | _ => false end)
       (wait_closed 0)
       (fun _ => set_break_loop true))
    (act Act_close ;;
     wait_closed 1).
End OnHost.
End Lifecycle.

(** * server-2.py and server-3.py: the echo handlers *)

(** [s * n] on a [str]. *)
Fixpoint str_times (s : string) (n : nat) : string :=
  match n with
  | O => EmptyString
  | S k => String.append s (str_times s k)
  end.

Definition str_mul (s : string) (n : Z) : string := str_times s (Z.to_nat n).

Module Echo.

(** One turn of the [while not break_loop] loop of [echo]: the flag when
    the loop tests it, how the first [recv] of the turn ends, how the sends
    that follow it end ([None]: the send returns; [additional_raises] is for
    the send that only server-2.py makes), how the second [recv] ends
    ([None] for a second [recv] still pending when the input is used up),
    and how the send of the large text ends. *)
Record turn : Type := mkTurn
  { break_loop : bool;
    first : recv_outcome;
    echo_raises : option exn;
    additional_raises : option exn;
    second : option recv_outcome;
    large_raises : option exn }.

Definition additional_message : string := "Server received your message!".

(** ["A" * 905000] *)
Definition large_data : string := str_mul "A" 905000.

(** The loop of [echo] in server-2.py; [outbox] holds the messages handed
    to [websocket.send] so far, oldest first. *)
Fixpoint loop2 (turns : list turn) (outbox : list message)
  : list message * result session_state :=
  match turns with
  | [] => (outbox, Ret AWAITING_FRAME)
  | t :: rest =>
      if break_loop t then (outbox, Ret CLOSED)
      else
        match first t with
        | RecvRaised e => (outbox, Raise e)
        | ReceivedNone => (outbox, Ret CLOSED)                    (* break *)
        | Received message =>
            let outbox := outbox ++ [message] in                  (* send(message) *)
            match echo_raises t with
            | Some e => (outbox, Raise e)
            | None =>
                let outbox := outbox ++ [Text additional_message] in
                match additional_raises t with
                | Some e => (outbox, Raise e)
                | None =>
                    match second t with
                    | None => (outbox, Ret AWAITING_FRAME)
                    | Some (RecvRaised e) => (outbox, Raise e)
                    | Some ReceivedNone => (outbox, Ret CLOSED)   (* break *)
                    | Some (Received second_message) =>
                        let outbox := outbox ++ [Text large_data] in
                        match large_raises t with
                        | Some e => (outbox, Raise e)
                        | None => loop2 rest outbox
                        end
                    end
                end
            end
        end
  end.

(** The loop of [echo] in server-3.py: no additional message. *)
Fixpoint loop3 (turns : list turn) (outbox : list message)
  : list message * result session_state :=
  match turns with
  | [] => (outbox, Ret AWAITING_FRAME)
  | t :: rest =>
      if break_loop t then (outbox, Ret CLOSED)
      else
        match first t with
        | RecvRaised e => (outbox, Raise e)
        | ReceivedNone => (outbox, Ret CLOSED)
        | Received message =>
            let outbox := outbox ++ [message] in
            match echo_raises t with
            | Some e => (outbox, Raise e)
            | None =>
                match second t with
                | None => (outbox, Ret AWAITING_FRAME)
                | Some (RecvRaised e) => (outbox, Raise e)
                | Some ReceivedNone => (outbox, Ret CLOSED)
                | Some (Received second_message) =>
                    let outbox := outbox ++ [Text large_data] in
                    match large_raises t with
                    | Some e => (outbox, Raise e)
                    | None => loop3 rest outbox
                    end
                end
            end
        end
  end.

(** [try: ... except websockets.exceptions.ConnectionClosedError] *)
Definition guarded (r : list message * result session_state)
  : list message * result session_state :=
  match r with
  | (outbox, Raise ConnectionClosedError) => (outbox, Ret CLOSED)
  | other => other
  end.

(** [echo] of server-2.py. *)
Definition echo2 (turns : list turn) (outbox : list message) :=
  guarded (loop2 turns outbox).

(** [echo] of server-3.py. *)
Definition echo3 (turns : list turn) (outbox : list message) :=
  guarded (loop3 turns outbox).

(** A turn of server-3.py in which both messages arrive while the flag is
    down and both sends return. *)
Definition complete3 (t : turn) : bool :=
  negb (break_loop t) &&
  match first t, echo_raises t, second t, large_raises t with
  | Received _, None, Some (Received _), None => true
  | _, _, _, _ => false
  end.

(** The same for server-2.py, whose additional send returns too. *)
Definition complete (t : turn) : bool :=
  complete3 t &&
  match additional_raises t with
  | None => true
  | Some _ => false
  end.

(** What server-2.py sends in a complete turn. *)
Definition round2 (t : turn) : list message :=
  match first t with
  | Received message => [message; Text additional_message; Text large_data]
  | _ => []
  end.

(** What server-3.py sends in a complete turn. *)
Definition round3 (t : turn) : list message :=
  match first t with
  | Received message => [message; Text large_data]
  | _ => []
  end.

(** Two turns that differ at most in the contents of the second message. *)
Definition same_but_second (t1 t2 : turn) : Prop :=
  break_loop t1 = break_loop t2 /\
  first t1 = first t2 /\
  echo_raises t1 = echo_raises t2 /\
  additional_raises t1 = additional_raises t2 /\
  large_raises t1 = large_raises t2 /\
  match second t1, second t2 with
  | Some (Received _), Some (Received _) => True
  | o1, o2 => o1 = o2
  end.
End Echo.

(** ** Machines used to run the start-up code *)

(** A Linux machine with the library installed; it loads under handle 7,
    initialises with [result], unloads, and the server is stopped by a
    cancellation. *)
Definition linux_host (result : Z) : Lifecycle.host nat :=
  Lifecycle.mkHost nat "Linux" "/Users/u/Library/Application Support/softoken/libsoftoken.dylib"
    (String.eqb "/usr/lib/softoken/libsoftoken.so")
    (fun _ => Lifecycle.Loaded 7%nat)
    (fun _ => result)
    (fun _ => 1)
    true
    (Some (fun _ => 0))
    false
    (fun n => Nat.eqb n 0).

(** A machine of a platform the code does not know. *)
Definition freebsd_host : Lifecycle.host nat :=
  Lifecycle.mkHost nat "FreeBSD" "" (fun _ => true) (fun _ => Lifecycle.Loaded 7%nat)
    (fun _ => 0) (fun _ => 1) true (Some (fun _ => 0)) false (fun _ => false).

(** The globals as the module sets them at import, nothing done yet. *)
Definition boot : Lifecycle.state nat :=
  Lifecycle.mkState (Lifecycle.mkGlobals false None false) [].

(** * Vocabulary for sessions *)

(** [elapsed_time <= 5] for a clock reading [now]. *)
Definition in_warmup (start_time now : float) : bool :=
  PrimFloat.leb (PrimFloat.sub now start_time) 5.

(** The frames with fixed contents. *)
Definition status_frame : bytes := [x00; x5b; x00; x04; x55; x55; x55; x55].

Definition atr_frame : bytes :=
  [x00; x58; x00; x0b; x3f; x95; x13; x81; x01; x80; x73; xff; x01; x00; x0b].

Definition placeholder_frame : bytes := [x00; x5a; x00; x02; x6d; x82].

(** The four frames server-4.py can send. *)
Definition server4_frames : list bytes :=
  [status_frame; atr_frame; placeholder_frame; default_response].

(** The commands a binary message makes server-5.py hand to the token. *)
Definition forwarded (start_time now : float) (message : bytes) : list bytes :=
  match tag_recvd_of message with
  | Some t =>
      if (t =? 89) && negb (in_warmup start_time now)
      then [slice_from message 2]
      else []
  | None => []
  end.

(** Where [handle_client] stands after a last turn whose answer was handed
    to [send]: suspended in [recv] when [send] returned, closed quietly when
    it raised [ConnectionClosedError] (the [except] clause), and otherwise
    left by the exception. *)
Definition after_answer (raises : option exn) : result session_state :=
  match raises with
  | None => Ret AWAITING_FRAME
  | Some ConnectionClosedError => Ret CLOSED
  | Some e => Raise e
  end.

(** A turn whose [send], if one is made, returns. *)
Definition sends_return (turn : iteration) : bool :=
  match send_raises turn with
  | None => true
  | Some _ => false
  end.

(** Every turn but the last has a [send] that returns. *)
Fixpoint sends_return_but_last (turns : list iteration) : bool :=
  match turns with
  | [] => true
  | [_] => true
  | turn :: rest => sends_return turn && sends_return_but_last rest
  end.

(** A turn in which a message arrives while the flag is down. *)
Definition message_turn (turn : iteration) : bool :=
  negb (break_loop turn) &&
  match recv turn with
  | Received _ => true
  | _ => false
  end.

(** A turn in which a text message arrives while the flag is down. *)
Definition text_turn (turn : iteration) : bool :=
  negb (break_loop turn) &&
  match recv turn with
  | Received (Text _) => true
  | _ => false
  end.

(** A turn that ends the loop without an exception leaving the handler:
    the flag is up, [recv] returns [None], or [recv] raises
    [ConnectionClosedError]. *)
Definition quiet_close (turn : iteration) : bool :=
  break_loop turn ||
  match recv turn with
  | ReceivedNone => true
  | RecvRaised ConnectionClosedError => true
  | _ => false
  end.

(** A turn whose binary message gets an answer: every binary message but
    those with byte 1 in 83, 81, 85. *)
Definition answered_turn (turn : iteration) : bool :=
  match recv turn with
  | Received (Binary data) => negb (is_silent (tag_recvd_of data))
  | _ => false
  end.

(** A turn whose clock reading lies in the warm-up window. *)
Definition warm_turn (start_time : float) (turn : iteration) : bool :=
  in_warmup start_time (time_time turn).

(** * Arithmetic of bytes and of [to_bytes] *)

Lemma byte_to_int_range (b : byte) : 0 <= byte_to_int b < 256.
Proof.
  unfold byte_to_int. pose proof (Byte.to_N_bounded b) as Hb.
  split; [apply N2Z.is_nonneg | ].
  apply (Z.le_lt_trans _ (Z.of_N 255)); [ | reflexivity].
  apply N2Z.inj_le. exact Hb.
Qed.

Lemma byte_to_int_to_byte (n : Z) :
  0 <= n < 256 -> byte_to_int (int_to_byte n) = n.
Proof.
  intros Hn. unfold byte_to_int, int_to_byte.
  destruct (Byte.of_N (Z.to_N n)) as [b|] eqn:E.
  - apply Byte.to_of_N in E. rewrite E. apply Z2N.id. lia.
  - apply Byte.of_N_None_iff in E. lia.
Qed.

Lemma to_bytes_2 (n : Z) :
  0 <= n < 65536 ->
  to_bytes n 2 = Ret [int_to_byte (n / 256); int_to_byte (n mod 256)].
Proof.
  intros Hn. unfold to_bytes.
  replace (256 ^ Z.of_nat 2) with 65536 by reflexivity.
  destruct (n <? 0) eqn:E1; [apply Z.ltb_lt in E1; lia | ].
  destruct (65536 <=? n) eqn:E2; [apply Z.leb_le in E2; lia | ].
  cbn [orb digits_le rev app].
  rewrite (Z.mod_small (n / 256) 256); [reflexivity | ].
  split; [apply Z.div_pos; lia | apply Z.div_lt_upper_bound; lia].
Qed.

Lemma to_bytes_2_overflow (n : Z) :
  65536 <= n -> to_bytes n 2 = Raise OverflowError.
Proof.
  intros Hn. unfold to_bytes.
  replace (256 ^ Z.of_nat 2) with 65536 by reflexivity.
  destruct (65536 <=? n) eqn:E2; [ | apply Z.leb_gt in E2; lia].
  now rewrite orb_true_r.
Qed.

Lemma from_bytes_2 (a b : byte) :
  from_bytes [a; b] = byte_to_int a * 256 + byte_to_int b.
Proof. unfold from_bytes. cbn [fold_left]. lia. Qed.

Lemma from_to_bytes_2 (n : Z) :
  0 <= n < 65536 ->
  from_bytes [int_to_byte (n / 256); int_to_byte (n mod 256)] = n.
Proof.
  intros Hn. rewrite from_bytes_2.
  rewrite !byte_to_int_to_byte.
  - pose proof (Z.div_mod n 256). lia.
  - apply Z.mod_pos_bound. lia.
  - split; [apply Z.div_pos; lia | apply Z.div_lt_upper_bound; lia].
Qed.

Lemma len_nonneg {A : Type} (l : list A) : 0 <= len l.
Proof. unfold len. lia. Qed.

Lemma len_slice_to {A : Type} (a : list A) (stop : Z) :
  len (slice_to a stop) <= len a.
Proof.
  unfold slice_to, len. rewrite length_firstn. lia.
Qed.

(** * The frame constructor *)

Lemma encode_ok (tag : Z) (payload : bytes) :
  0 <= tag < 65536 -> len payload < 65536 ->
  encode tag payload =
    Ret ([int_to_byte (tag / 256); int_to_byte (tag mod 256)]
         ++ [int_to_byte (len payload / 256); int_to_byte (len payload mod 256)]
         ++ payload).
Proof.
  intros Ht Hp. unfold encode.
  rewrite (to_bytes_2 tag Ht).
  rewrite (to_bytes_2 (len payload)); [reflexivity | ].
  split; [apply len_nonneg | exact Hp].
Qed.

Lemma encode_length_field (tag : Z) (payload frame : bytes) :
  encode tag payload = Ret frame -> length_field_ok frame = true.
Proof.
  unfold encode. intros H.
  destruct (to_bytes tag 2) as [t|e] eqn:Et; [ | discriminate].
  destruct (to_bytes (len payload) 2) as [l|e] eqn:El; [ | discriminate].
  injection H as <-.
  assert (Hrange : forall n b, to_bytes n 2 = Ret b -> 0 <= n < 65536).
  { intros n b. unfold to_bytes.
    replace (256 ^ Z.of_nat 2) with 65536 by reflexivity.
    destruct (n <? 0) eqn:E1; [discriminate | ].
    destruct (65536 <=? n) eqn:E2; [discriminate | ].
    apply Z.ltb_ge in E1. apply Z.leb_gt in E2. lia. }
  pose proof (Hrange _ _ Et) as Ht. pose proof (Hrange _ _ El) as Hl.
  rewrite (to_bytes_2 _ Ht) in Et. rewrite (to_bytes_2 _ Hl) in El.
  injection Et as <-. injection El as <-.
  cbn [app length_field_ok].
  rewrite (from_to_bytes_2 _ Hl). apply Z.eqb_refl.
Qed.

Lemma to_bytes_91 : to_bytes 91 2 = Ret [x00; x5b].
Proof. reflexivity. Qed.

Lemma to_bytes_88 : to_bytes 88 2 = Ret [x00; x58].
Proof. reflexivity. Qed.

Lemma to_bytes_90 : to_bytes 90 2 = Ret [x00; x5a].
Proof. reflexivity. Qed.

Lemma frames_sent_app (a b : list event) :
  frames_sent (a ++ b) = frames_sent a ++ frames_sent b.
Proof.
  induction a as [|[f|c] a IH]; cbn [app frames_sent]; [reflexivity | | exact IH].
  now rewrite IH.
Qed.

Lemma commands_passed_app (a b : list event) :
  commands_passed (a ++ b) = commands_passed a ++ commands_passed b.
Proof.
  induction a as [|[f|c] a IH]; cbn [app commands_passed]; [reflexivity | exact IH | ].
  now rewrite IH.
Qed.

(** * server-5.py: the branches of the dispatcher *)

Section Server5Facts.
Variable card : Type.
Variable token : card -> bytes -> card * ffi_return.
Variable start_time : float.

Abbreviation handle_apdu := (Server5.handle_apdu card token).
Abbreviation handle_message := (Server5.handle_message card token start_time).
Abbreviation receive_loop := (Server5.receive_loop card token start_time).
Abbreviation handle_client := (Server5.handle_client card token start_time).

Lemma len_response_buffer (written : bytes) :
  len (Server5.response_buffer written) = 10000.
Proof.
  unfold Server5.response_buffer, len.
  rewrite length_firstn, length_app, repeat_length.
  rewrite Nat.min_l by lia.
  unfold Server5.response_capacity. lia.
Qed.

(** [handle_apdu] returns at most the 10000 bytes of its buffer. *)
Lemma handle_apdu_len (command resp : bytes) (w w' : world card) :
  handle_apdu command w = (w', Ret resp) -> len resp <= 10000.
Proof.
  unfold Server5.handle_apdu. cbn [softoken trace].
  destruct (token (softoken w) command) as [c' [|written n]]; [discriminate | ].
  intros H. injection H as _ <-.
  rewrite <- (len_response_buffer written). apply len_slice_to.
Qed.

(** [handle_apdu] calls the token once, with the command it was given. *)
Lemma handle_apdu_trace (command : bytes) (w : world card) :
  trace (fst (handle_apdu command w)) = trace w ++ [SendApdu command].
Proof.
  unfold Server5.handle_apdu. cbn [softoken trace].
  now destruct (token (softoken w) command) as [c' [|written n]].
Qed.

Lemma status_branch (now : float) (sent : option exn) (message : bytes)
      (w : world card) :
  tag_recvd_of message = Some 91 ->
  handle_message now sent message w =
    (after_send w [x00; x5b; x00; x04; x55; x55; x55; x55], send_result sent).
Proof.
  intros Ht. unfold Server5.handle_message. rewrite Ht. reflexivity.
Qed.

Lemma atr_branch (now : float) (sent : option exn) (message : bytes)
      (w : world card) :
  tag_recvd_of message = Some 87 ->
  handle_message now sent message w =
    (after_send w [x00; x58; x00; x0b;
                   x3f; x95; x13; x81; x01; x80; x73; xff; x01; x00; x0b],
     send_result sent).
Proof.
  intros Ht. unfold Server5.handle_message. rewrite Ht. reflexivity.
Qed.

Lemma warmup_branch (now : float) (sent : option exn) (message : bytes)
      (w : world card) :
  tag_recvd_of message = Some 89 ->
  PrimFloat.leb (PrimFloat.sub now start_time) 5 = true ->
  handle_message now sent message w =
    (after_send w [x00; x5a; x00; x02; x6d; x82], send_result sent).
Proof.
  intros Ht Hw. unfold Server5.handle_message. rewrite Ht.
  cbn [Z.eqb Pos.eqb]. rewrite Hw. reflexivity.
Qed.

Lemma apdu_branch (now : float) (sent : option exn) (message : bytes)
      (w : world card) :
  tag_recvd_of message = Some 89 ->
  PrimFloat.leb (PrimFloat.sub now start_time) 5 = false ->
  handle_message now sent message w =
    match handle_apdu (slice_from message 2) w with
    | (w', Ret resp) =>
        (after_send w'
           ([x00; x5a]
            ++ [int_to_byte (len resp / 256); int_to_byte (len resp mod 256)]
            ++ resp),
         send_result sent)
    | (w', Raise _) =>
        (after_send w' [x00; x5a; x00; x02; x6d; x82], send_result sent)
    end.
Proof.
  intros Ht Hw. unfold Server5.handle_message. rewrite Ht.
  cbn [Z.eqb Pos.eqb]. rewrite Hw.
  unfold bind at 1. unfold try_except.
  destruct (handle_apdu (slice_from message 2) w) as [w' [resp|e]] eqn:E.
  - apply handle_apdu_len in E.
    unfold bind, lift. rewrite to_bytes_90.
    rewrite (to_bytes_2 (len resp)); [reflexivity | ].
    split; [apply len_nonneg | lia].
  - reflexivity.
Qed.

Lemma silent_branch (now : float) (sent : option exn) (message : bytes)
      (w : world card) :
  is_silent (tag_recvd_of message) = true ->
  handle_message now sent message w = (w, Ret tt).
Proof.
  unfold is_silent, Server5.handle_message.
  destruct (tag_recvd_of message) as [t|]; [ | discriminate].
  unfold silent_tags. cbn [existsb orb]. intros H.
  destruct (Z.eqb_spec t 83) as [E|_]; [now rewrite E | ].
  destruct (Z.eqb_spec t 81) as [E|_]; [now rewrite E | ].
  destruct (Z.eqb_spec t 85) as [E|_]; [now rewrite E | discriminate].
Qed.

Lemma default_branch (now : float) (sent : option exn) (message : bytes)
      (w : world card) :
  (forall t, tag_recvd_of message = Some t -> ~ In t routed_tags) ->
  handle_message now sent message w =
    (after_send w default_response, send_result sent).
Proof.
  intros Hu. unfold Server5.handle_message.
  destruct (tag_recvd_of message) as [t|]; [ | reflexivity].
  specialize (Hu t eq_refl). unfold routed_tags in Hu. cbn [In] in Hu.
  cbn [existsb].
  repeat match goal with
         | |- context [Z.eqb t ?n] =>
             destruct (Z.eqb_spec t n) as [E|_];
             [exfalso; apply Hu; rewrite E; auto 10 | ]
         end.
  reflexivity.
Qed.
End Server5Facts.

(** * server-5.py: whole messages and whole sessions *)

Lemma tag_cases (message : bytes) :
  tag_recvd_of message = Some 91 \/
  tag_recvd_of message = Some 87 \/
  tag_recvd_of message = Some 89 \/
  is_silent (tag_recvd_of message) = true \/
  (forall t, tag_recvd_of message = Some t -> ~ In t routed_tags).
Proof.
  destruct (tag_recvd_of message) as [t|].
  - destruct (Z.eq_dec t 91) as [->|N1]; [now left | ].
    destruct (Z.eq_dec t 87) as [->|N2]; [now right; left | ].
    destruct (Z.eq_dec t 89) as [->|N3]; [now right; right; left | ].
    destruct (Z.eq_dec t 83) as [->|N4]; [now right; right; right; left | ].
    destruct (Z.eq_dec t 81) as [->|N5]; [now right; right; right; left | ].
    destruct (Z.eq_dec t 85) as [->|N6]; [now right; right; right; left | ].
    right; right; right; right. intros t' [= <-]. unfold routed_tags. cbn [In].
    intros [H|[H|[H|[H|[H|[H|[]]]]]]]; congruence.
  - right; right; right; right. intros t [=].
Qed.

Lemma length_field_ok_apdu (t0 t1 : byte) (resp : bytes) :
  len resp <= 10000 ->
  length_field_ok
    ([t0; t1] ++ [int_to_byte (len resp / 256); int_to_byte (len resp mod 256)]
     ++ resp) = true.
Proof.
  intros Hl. cbn [app length_field_ok].
  rewrite from_to_bytes_2; [apply Z.eqb_refl | ].
  split; [apply len_nonneg | lia].
Qed.

Section Server5Sessions.
Variable card : Type.
Variable token : card -> bytes -> card * ffi_return.
Variable start_time : float.

Abbreviation handle_apdu := (Server5.handle_apdu card token).
Abbreviation handle_message := (Server5.handle_message card token start_time).
Abbreviation receive_loop := (Server5.receive_loop card token start_time).
Abbreviation handle_client := (Server5.handle_client card token start_time).

(** No binary message makes the dispatcher itself raise: only [send] can.
    What a message adds to the trace is at most one call of the token and at
    most one frame. *)
Lemma handle_message_returns (now : float) (sent : option exn) (message : bytes)
      (w : world card) :
  exists (w' : world card) (new : list event),
    handle_message now sent message w =
      (w', if is_silent (tag_recvd_of message) then Ret tt else send_result sent) /\
    trace w' = trace w ++ new /\
    Forall frame_shape (frames_sent new) /\
    (In (default_response) (frames_sent new) ->
     forall t, tag_recvd_of message = Some t -> ~ In t answered_tags) /\
    List.length (frames_sent new) =
      (if is_silent (tag_recvd_of message) then 0%nat else 1%nat).
Proof.
  destruct (tag_cases message) as [H|[H|[H|[H|H]]]].
  - exists (after_send w [x00; x5b; x00; x04; x55; x55; x55; x55]).
    eexists. rewrite H. cbn [is_silent existsb silent_tags Z.eqb Pos.eqb orb].
    split; [now apply status_branch | ]. split; [reflexivity | ].
    cbn [frames_sent List.length].
    split; [repeat constructor | ]. split; [ | reflexivity].
    intros [[=]|[]].
  - eexists (after_send w _).
    eexists. rewrite H. cbn [is_silent existsb silent_tags Z.eqb Pos.eqb orb].
    split; [now apply atr_branch | ]. split; [reflexivity | ].
    cbn [frames_sent List.length].
    split; [repeat constructor | ]. split; [ | reflexivity].
    intros [[=]|[]].
  - destruct (PrimFloat.leb (PrimFloat.sub now start_time) 5) eqn:Hw.
    + eexists (after_send w _).
      eexists. rewrite H. cbn [is_silent existsb silent_tags Z.eqb Pos.eqb orb].
      split; [now apply warmup_branch | ]. split; [reflexivity | ].
      cbn [frames_sent List.length].
      split; [repeat constructor | ]. split; [ | reflexivity].
      intros [[=]|[]].
    + rewrite (apdu_branch card token start_time now sent message w H Hw).
      pose proof (handle_apdu_trace card token (slice_from message 2) w) as Htr.
      destruct (handle_apdu (slice_from message 2) w) as [w' [resp|e]] eqn:E;
        cbn [fst] in Htr.
      * apply handle_apdu_len in E.
        eexists (after_send w' _). eexists.
        rewrite H. cbn [is_silent existsb silent_tags Z.eqb Pos.eqb orb].
        split; [reflexivity | ].
        unfold after_send. cbn [trace]. rewrite Htr, <- app_assoc.
        split; [reflexivity | ].
        cbn [app frames_sent List.length].
        split; [ | split; [ | reflexivity]].
        -- constructor; [ | constructor]. left.
           now apply (length_field_ok_apdu x00 x5a).
        -- intros [[=]|[]].
      * eexists (after_send w' _). eexists.
        rewrite H. cbn [is_silent existsb silent_tags Z.eqb Pos.eqb orb].
        split; [reflexivity | ].
        unfold after_send. cbn [trace]. rewrite Htr, <- app_assoc.
        split; [reflexivity | ].
        cbn [app frames_sent List.length].
        split; [repeat constructor | ]. split; [ | reflexivity].
        intros [[=]|[]].
  - exists w, []. rewrite H. split; [now apply silent_branch | ].
    rewrite app_nil_r. cbn [frames_sent List.length].
    split; [reflexivity | ]. split; [constructor | ]. split; [ | reflexivity].
    intros [].
  - assert (Hs : is_silent (tag_recvd_of message) = false).
    { destruct (tag_recvd_of message) as [t|] eqn:E; [ | reflexivity].
      cbn [is_silent]. destruct (existsb (Z.eqb t) silent_tags) eqn:Ex; [ | reflexivity].
      exfalso. apply existsb_exists in Ex. destruct Ex as (x & Hin & Hx).
      apply Z.eqb_eq in Hx. subst x. apply (H t eq_refl).
      unfold silent_tags in Hin. unfold routed_tags. cbn [In] in *. tauto. }
    exists (after_send w default_response), [Sent default_response].
    rewrite Hs.
    split; [now apply default_branch | ]. split; [reflexivity | ].
    cbn [frames_sent List.length].
    split; [constructor; [now right | constructor] | ]. split; [ | reflexivity].
    intros _ t Ht Hin. apply (H t Ht).
    unfold answered_tags in Hin. unfold routed_tags. cbn [In] in *. tauto.
Qed.

(** After a binary message that the dispatcher handles without raising,
    the loop goes round. *)
Lemma handle_client_round (now : float) (sent : option exn) (message : bytes)
      (rest : list iteration) (w w' : world card) :
  handle_message now sent message w = (w', Ret tt) ->
  handle_client (binary_turn now sent message :: rest) w = handle_client rest w'.
Proof.
  intros H. unfold Server5.handle_client.
  cbn [Server5.receive_loop binary_turn break_loop recv time_time send_raises].
  unfold bind at 1. now rewrite H.
Qed.

Lemma handle_client_step (now : float) (message : bytes) (rest : list iteration)
      (w w' : world card) :
  handle_message now None message w = (w', Ret tt) ->
  handle_client (binary_at now message :: rest) w = handle_client rest w'.
Proof. intros H. unfold binary_at. now apply handle_client_round. Qed.

Lemma handle_client_last (now : float) (message : bytes) (w w' : world card) :
  handle_message now None message w = (w', Ret tt) ->
  handle_client [binary_at now message] w = (w', Ret AWAITING_FRAME).
Proof.
  intros H. now rewrite (handle_client_step now message [] w w' H).
Qed.

(** A turn whose answer is handed to [send] ends as [send] ends; nothing
    after it is read when [send] raises. *)
Lemma handle_client_answer (now : float) (sent : option exn) (message : bytes)
      (rest : list iteration) (w w' : world card) :
  handle_message now sent message w = (w', send_result sent) ->
  handle_client (binary_turn now sent message :: rest) w =
    match sent with
    | None => handle_client rest w'
    | Some _ => (w', after_answer sent)
    end.
Proof.
  intros H. destruct sent as [e|]; [ | now apply handle_client_round].
  unfold Server5.handle_client.
  cbn [Server5.receive_loop binary_turn break_loop recv time_time send_raises].
  unfold bind at 1. rewrite H. cbn [send_result after_answer].
  now destruct e.
Qed.

(** Everything a session sends has the shape of a sent frame. *)
Lemma receive_loop_frames (turns : list iteration) :
  forall w : world card,
  exists new : list event,
    trace (fst (receive_loop turns w)) = trace w ++ new /\
    Forall frame_shape (frames_sent new).
Proof.
  induction turns as [|turn rest IH]; intros w.
  - exists []. cbn. rewrite app_nil_r. split; [reflexivity | constructor].
  - cbn [Server5.receive_loop].
    destruct (break_loop turn).
    { exists []. cbn. rewrite app_nil_r. split; [reflexivity | constructor]. }
    destruct (recv turn) as [[data|s]| |e].
    + destruct (handle_message_returns (time_time turn) (send_raises turn) data w)
        as (w' & new1 & Hm & Ht & Hs & _).
      unfold bind. rewrite Hm.
      destruct (if is_silent (tag_recvd_of data) then Ret tt
                else send_result (send_raises turn)) as [[]|e].
      * destruct (IH w') as (new2 & Ht2 & Hs2).
        exists (new1 ++ new2). rewrite Ht2, Ht, app_assoc.
        split; [reflexivity | ].
        rewrite frames_sent_app. apply Forall_app. now split.
      * exists new1. cbn [fst]. now split.
    + apply IH.
    + exists []. cbn. rewrite app_nil_r. split; [reflexivity | constructor].
    + exists []. cbn. rewrite app_nil_r. split; [reflexivity | constructor].
Qed.

Lemma handle_client_world (turns : list iteration) (w : world card) :
  fst (handle_client turns w) = fst (receive_loop turns w).
Proof.
  unfold Server5.handle_client.
  now destruct (receive_loop turns w) as [w' [s|[]]].
Qed.
End Server5Sessions.

(** * server-4.py: the branches of the dispatcher *)

Lemma status_branch4 (sent : option exn) (message : bytes) (w : world unit) :
  tag_recvd_of message = Some 91 ->
  Server4.handle_message sent message w =
    (after_send w [x00; x5b; x00; x04; x55; x55; x55; x55], send_result sent).
Proof.
  intros Ht. unfold Server4.handle_message. rewrite Ht. reflexivity.
Qed.

Lemma apdu_branch4 (sent : option exn) (message : bytes) (w : world unit) :
  tag_recvd_of message = Some 89 ->
  Server4.handle_message sent message w =
    (after_send w [x00; x5a; x00; x02; x6d; x82], send_result sent).
Proof.
  intros Ht. unfold Server4.handle_message. rewrite Ht. reflexivity.
Qed.

Lemma default_branch4 (sent : option exn) (message : bytes) (w : world unit) :
  (forall t, tag_recvd_of message = Some t -> ~ In t routed_tags) ->
  Server4.handle_message sent message w =
    (after_send w default_response, send_result sent).
Proof.
  intros Hu. unfold Server4.handle_message.
  destruct (tag_recvd_of message) as [t|]; [ | reflexivity].
  specialize (Hu t eq_refl). unfold routed_tags in Hu. cbn [In] in Hu.
  cbn [existsb].
  repeat match goal with
         | |- context [Z.eqb t ?n] =>
             destruct (Z.eqb_spec t n) as [E|_];
             [exfalso; apply Hu; rewrite E; auto 10 | ]
         end.
  reflexivity.
Qed.

Lemma handle_client_round4 (now : float) (sent : option exn) (message : bytes)
      (rest : list iteration) (w w' : world unit) :
  Server4.handle_message sent message w = (w', Ret tt) ->
  Server4.handle_client (binary_turn now sent message :: rest) w =
    Server4.handle_client rest w'.
Proof.
  intros H. unfold Server4.handle_client.
  cbn [Server4.receive_loop binary_turn break_loop recv time_time send_raises].
  unfold bind at 1. now rewrite H.
Qed.

Lemma handle_client_step4 (now : float) (message : bytes) (rest : list iteration)
      (w w' : world unit) :
  Server4.handle_message None message w = (w', Ret tt) ->
  Server4.handle_client (binary_at now message :: rest) w =
    Server4.handle_client rest w'.
Proof. intros H. unfold binary_at. now apply handle_client_round4. Qed.

Lemma handle_client_answer4 (now : float) (sent : option exn) (message : bytes)
      (rest : list iteration) (w w' : world unit) :
  Server4.handle_message sent message w = (w', send_result sent) ->
  Server4.handle_client (binary_turn now sent message :: rest) w =
    match sent with
    | None => Server4.handle_client rest w'
    | Some _ => (w', after_answer sent)
    end.
Proof.
  intros H. destruct sent as [e|]; [ | now apply handle_client_round4].
  unfold Server4.handle_client.
  cbn [Server4.receive_loop binary_turn break_loop recv time_time send_raises].
  unfold bind at 1. rewrite H. cbn [send_result after_answer].
  now destruct e.
Qed.

Lemma short_message_untagged (message : bytes) :
  (List.length message <= 1)%nat ->
  forall t, tag_recvd_of message = Some t -> ~ In t routed_tags.
Proof.
  intros Hl t. destruct message as [|b0 [|b1 message]]; cbn in *; [intros [=] .. | lia].
Qed.

(** What the default branch does to a session, in both variants. *)
Lemma default_turn
  (card : Type) (token : card -> bytes -> card * ffi_return) (start_time now : float)
  (sent : option exn) (message : bytes) (w : world card) (w4 : world unit) :
  (forall t, tag_recvd_of message = Some t -> ~ In t routed_tags) ->
  Server5.handle_message card token start_time now sent message w =
    (after_send w [x00; x02; x6d; x82], send_result sent) /\
  Server5.handle_client card token start_time [binary_turn now sent message] w =
    (after_send w [x00; x02; x6d; x82], after_answer sent) /\
  Server5.handle_client card token start_time [binary_at now message] w =
    (after_send w [x00; x02; x6d; x82], Ret AWAITING_FRAME) /\
  (forall rest,
      Server5.handle_client card token start_time (binary_at now message :: rest) w =
        Server5.handle_client card token start_time rest
          (after_send w [x00; x02; x6d; x82])) /\
  Server4.handle_message sent message w4 =
    (after_send w4 [x00; x02; x6d; x82], send_result sent) /\
  Server4.handle_client [binary_turn now sent message] w4 =
    (after_send w4 [x00; x02; x6d; x82], after_answer sent) /\
  Server4.handle_client [binary_at now message] w4 =
    (after_send w4 [x00; x02; x6d; x82], Ret AWAITING_FRAME) /\
  (forall rest,
      Server4.handle_client (binary_at now message :: rest) w4 =
        Server4.handle_client rest (after_send w4 [x00; x02; x6d; x82])).
Proof.
  intros Hu.
  assert (H5 : forall s, Server5.handle_message card token start_time now s message w =
                         (after_send w [x00; x02; x6d; x82], send_result s)).
  { intros s. exact (default_branch card token start_time now s message w Hu). }
  assert (H4 : forall s, Server4.handle_message s message w4 =
                         (after_send w4 [x00; x02; x6d; x82], send_result s)).
  { intros s. exact (default_branch4 s message w4 Hu). }
  split; [apply H5 | ]. split.
  { rewrite (handle_client_answer card token start_time now sent message [] w _ (H5 sent)).
    now destruct sent. }
  split; [apply handle_client_last; apply (H5 None) | ].
  split; [intros rest; apply handle_client_step; apply (H5 None) | ].
  split; [apply H4 | ]. split.
  { rewrite (handle_client_answer4 now sent message [] w4 _ (H4 sent)).
    now destruct sent. }
  split.
  { now rewrite (handle_client_step4 now message [] w4 _ (H4 None)). }
  intros rest. apply handle_client_step4. apply (H4 None).
Qed.

(** * Properties of the dispatcher and of the frame format *)



(** C2. A Command APDU that arrives after the warm-up window: when
    [handle_apdu] returns [X], the answer is the frame of tag 90 and payload
    [X]; when it raises, the answer is 00 5A 00 02 6D 82 (tag 90, payload
    6D 82).  In both cases the dispatcher itself does not raise, and once
    the answer is sent the receive loop goes on with the next turn. *)
Theorem C2_apdu_after_warmup
  (card : Type) (token : card -> bytes -> card * ffi_return) (start_time now : float)
  (sent : option exn) (message : bytes) (w : world card) :
  tag_recvd_of message = Some 89 ->
  PrimFloat.leb (PrimFloat.sub now start_time) 5 = false ->
  (forall X w',
      Server5.handle_apdu card token (slice_from message 2) w = (w', Ret X) ->
      exists frame,
        encode 90 X = Ret frame /\
        Server5.handle_message card token start_time now sent message w =
          (after_send w' frame, send_result sent)) /\
  (forall e w',
      Server5.handle_apdu card token (slice_from message 2) w = (w', Raise e) ->
      encode 90 [x6d; x82] = Ret [x00; x5a; x00; x02; x6d; x82] /\
      Server5.handle_message card token start_time now sent message w =
        (after_send w' [x00; x5a; x00; x02; x6d; x82], send_result sent)) /\
  (exists w'',
      Server5.handle_message card token start_time now None message w = (w'', Ret tt) /\
      Server5.handle_client card token start_time [binary_at now message] w =
        (w'', Ret AWAITING_FRAME) /\
      forall rest,
        Server5.handle_client card token start_time (binary_at now message :: rest) w =
          Server5.handle_client card token start_time rest w'').
Proof.
  intros Ht Hw.
  pose proof (apdu_branch card token start_time now sent message w Ht Hw) as Hb.
  split; [ | split].
  - intros X w' E. rewrite E in Hb. eexists. split; [ | exact Hb].
    apply handle_apdu_len in E.
    rewrite encode_ok; [reflexivity | lia | lia].
  - intros e w' E. rewrite E in Hb. split; [reflexivity | exact Hb].
  - destruct (handle_message_returns card token start_time now None message w)
      as (w'' & new & Hm & _).
    rewrite Ht in Hm. cbn [is_silent existsb silent_tags Z.eqb Pos.eqb orb send_result] in Hm.
    exists w''. split; [exact Hm | ]. split.
    + now apply handle_client_last.
    + intros rest. now apply handle_client_step.
Qed.

Lemma C2_witness :
  tag_recvd_of [x00; x59; x00; xa4; x04; x00] = Some 89 /\
  PrimFloat.leb (PrimFloat.sub t_late t_start) 5 = false /\
  (exists frame,
      encode 90 [x00; xa4; x04; x00; x90; x00] = Ret frame /\
      Server5.handle_message nat echo_token t_start t_late None
        [x00; x59; x00; xa4; x04; x00] fresh =
        (after_send (mkWorld 1%nat [SendApdu [x00; xa4; x04; x00]]) frame, Ret tt)) /\
  Server5.handle_message nat faulty_token t_start t_late None
    [x00; x59; x00; xa4; x04; x00] fresh =
    (mkWorld 1%nat [SendApdu [x00; xa4; x04; x00]; Sent [x00; x5a; x00; x02; x6d; x82]],
     Ret tt).
Proof.
  split; [reflexivity | ]. split; [reflexivity | ]. split.
  - exact (proj1 (C2_apdu_after_warmup nat echo_token t_start t_late None
                    [x00; x59; x00; xa4; x04; x00] fresh eq_refl eq_refl)
             [x00; xa4; x04; x00; x90; x00]
             (mkWorld 1%nat [SendApdu [x00; xa4; x04; x00]]) eq_refl).
  - exact (proj2 (proj1 (proj2 (C2_apdu_after_warmup nat faulty_token t_start t_late None
                    [x00; x59; x00; xa4; x04; x00] fresh eq_refl eq_refl))
             ForeignCallError
             (mkWorld 1%nat [SendApdu [x00; xa4; x04; x00]]) eq_refl)).
Defined.

(** C3, as the code has it. A Command APDU that arrives after the warm-up
    window makes exactly one call of the token, and the command passed is
    [message[2::]]: the message without its first two bytes.  Under the
    wire layout (tag, length, payload) that is the two bytes of the length
    field followed by the payload. *)
Theorem C3_forwarded_command
  (card : Type) (token : card -> bytes -> card * ffi_return) (start_time now : float)
  (sent : option exn) (message : bytes) (w : world card) :
  tag_recvd_of message = Some 89 ->
  PrimFloat.leb (PrimFloat.sub now start_time) 5 = false ->
  commands_passed
    (trace (fst (Server5.handle_message card token start_time now sent message w))) =
    commands_passed (trace w) ++ [slice_from message 2] /\
  slice_from message 2 = firstn 2 (slice_from message 2) ++ frame_payload message.
Proof.
  intros Ht Hw. split.
  - rewrite (apdu_branch card token start_time now sent message w Ht Hw).
    pose proof (handle_apdu_trace card token (slice_from message 2) w) as Htr.
    destruct (Server5.handle_apdu card token (slice_from message 2) w)
      as [w' [resp|e]]; cbn [fst] in *;
      unfold after_send; cbn [trace]; rewrite Htr, !commands_passed_app;
      cbn [commands_passed]; now rewrite app_nil_r.
  - unfold frame_payload, slice_from.
    change 4%nat with (2 + 2)%nat. rewrite <- skipn_skipn.
    symmetry. apply firstn_skipn.
Qed.

Lemma C3_witness :
  tag_recvd_of [x00; x59; x00; x02; xaa; xbb] = Some 89 /\
  PrimFloat.leb (PrimFloat.sub t_late t_start) 5 = false /\
  commands_passed
    (trace (fst (Server5.handle_message nat echo_token t_start t_late None
                   [x00; x59; x00; x02; xaa; xbb] fresh))) =
    [[x00; x02; xaa; xbb]].
Proof.
  split; [reflexivity | ]. split; [reflexivity | ].
  exact (proj1 (C3_forwarded_command nat echo_token t_start t_late None
                  [x00; x59; x00; x02; xaa; xbb] fresh eq_refl eq_refl)).
Defined.

(** C3, as stated, fails: for the frame 00 59 00 02 AA BB (tag 89, length 2,
    payload AA BB) received after the warm-up window, the token is called
    with 00 02 AA BB, the length field included, not with the payload
    AA BB. *)
Lemma C3_counterexample :
  tag_recvd_of [x00; x59; x00; x02; xaa; xbb] = Some 89 /\
  PrimFloat.leb (PrimFloat.sub t_late t_start) 5 = false /\
  frame_payload [x00; x59; x00; x02; xaa; xbb] = [xaa; xbb] /\
  commands_passed
    (trace (fst (Server5.handle_message nat echo_token t_start t_late None
                   [x00; x59; x00; x02; xaa; xbb] fresh))) =
    [[x00; x02; xaa; xbb]] /\
  commands_passed
    (trace (fst (Server5.handle_message nat echo_token t_start t_late None
                   [x00; x59; x00; x02; xaa; xbb] fresh))) <>
    [frame_payload [x00; x59; x00; x02; xaa; xbb]].
Proof.
  repeat split; try reflexivity. vm_compute. discriminate.
Qed.

(** Every binary message is dispatched by its byte 1, and by nothing
    else that could end the session. *)
Lemma dispatch_by_routing_byte
  (card : Type) (token : card -> bytes -> card * ffi_return) (start_time now : float)
  (sent : option exn) (message : bytes) (w : world card) :
  exists (w' : world card) (answer : list bytes),
    Server5.handle_message card token start_time now sent message w =
      (w', if is_silent (tag_recvd_of message) then Ret tt else send_result sent) /\
    frames_sent (trace w') = frames_sent (trace w) ++ answer /\
    (is_silent (tag_recvd_of message) = true -> answer = []) /\
    (tag_recvd_of message = Some 91 -> answer = [status_frame]) /\
    (tag_recvd_of message = Some 87 -> answer = [atr_frame]) /\
    (tag_recvd_of message = Some 89 ->
     exists payload frame, encode 90 payload = Ret frame /\ answer = [frame]) /\
    ((forall t, tag_recvd_of message = Some t -> ~ In t routed_tags) ->
     answer = [default_response]).
Proof.
  assert (Hsent : forall (w' : world card) f,
             frames_sent (trace (after_send w' f)) = frames_sent (trace w') ++ [f]).
  { intros w' f. unfold after_send. cbn [trace]. now rewrite frames_sent_app. }
  destruct (tag_cases message) as [H|[H|[H|[H|H]]]].
  - exists (after_send w status_frame), [status_frame].
    rewrite H. cbn [is_silent existsb silent_tags Z.eqb Pos.eqb orb].
    split; [now apply status_branch | ]. split; [apply Hsent | ].
    repeat split; try discriminate; try reflexivity.
    intros Hu. exfalso. apply (Hu 91 eq_refl). cbn; auto.
  - exists (after_send w atr_frame), [atr_frame].
    rewrite H. cbn [is_silent existsb silent_tags Z.eqb Pos.eqb orb].
    split; [now apply atr_branch | ]. split; [apply Hsent | ].
    repeat split; try discriminate; try reflexivity.
    intros Hu. exfalso. apply (Hu 87 eq_refl). cbn; auto.
  - assert (Hrest : forall (w' : world card) payload frame,
               encode 90 payload = Ret frame ->
               frames_sent (trace w') = frames_sent (trace w) ->
               frames_sent (trace (after_send w' frame)) = frames_sent (trace w) ++ [frame] /\
               (is_silent (Some 89) = true -> [frame] = []) /\
               (Some 89 = Some 91 -> [frame] = [status_frame]) /\
               (Some 89 = Some 87 -> [frame] = [atr_frame]) /\
               (Some 89 = Some 89 ->
                exists payload0 frame0, encode 90 payload0 = Ret frame0 /\ [frame] = [frame0]) /\
               ((forall t, Some 89 = Some t -> ~ In t routed_tags) -> [frame] = [default_response])).
    { intros w' payload frame He Hf. rewrite Hsent, Hf.
      repeat split; try discriminate.
      - intros _. now exists payload, frame.
      - intros Hu. exfalso. apply (Hu 89 eq_refl). cbn; auto. }
    destruct (PrimFloat.leb (PrimFloat.sub now start_time) 5) eqn:Hw.
    + exists (after_send w placeholder_frame), [placeholder_frame].
      rewrite (warmup_branch card token start_time now sent message w H Hw), H.
      split; [reflexivity | ].
      apply (Hrest w [x6d; x82] placeholder_frame); reflexivity.
    + rewrite (apdu_branch card token start_time now sent message w H Hw), H.
      pose proof (handle_apdu_trace card token (slice_from message 2) w) as Htr.
      destruct (Server5.handle_apdu card token (slice_from message 2) w)
        as [w' [resp|e]] eqn:E; cbn [fst] in Htr.
      * apply handle_apdu_len in E.
        eexists (after_send w' _), [_]. split; [reflexivity | ].
        apply (Hrest w' resp).
        -- rewrite encode_ok; [reflexivity | lia | lia].
        -- rewrite Htr, frames_sent_app. cbn. apply app_nil_r.
      * eexists (after_send w' _), [_]. split; [reflexivity | ].
        apply (Hrest w' [x6d; x82]); [reflexivity | ].
        rewrite Htr, frames_sent_app. cbn. apply app_nil_r.
  - exists w, []. rewrite H.
    split; [now apply silent_branch | ]. split; [now rewrite app_nil_r | ].
    unfold is_silent in H.
    destruct (tag_recvd_of message) as [t|]; [ | discriminate H].
    split; [reflexivity | ].
    split; [intros [= ->]; discriminate H | ].
    split; [intros [= ->]; discriminate H | ].
    split; [intros [= ->]; discriminate H | ].
    intros Hu. exfalso. apply (Hu t eq_refl).
    apply existsb_exists in H. destruct H as (x & Hin & Hxe).
    apply Z.eqb_eq in Hxe. subst x.
    unfold silent_tags in Hin. unfold routed_tags. cbn [In] in *. tauto.
  - assert (Hs : is_silent (tag_recvd_of message) = false).
    { destruct (tag_recvd_of message) as [t|] eqn:E; [ | reflexivity].
      cbn [is_silent]. destruct (existsb (Z.eqb t) silent_tags) eqn:Ex; [ | reflexivity].
      exfalso. apply existsb_exists in Ex. destruct Ex as (x & Hin & Hxe).
      apply Z.eqb_eq in Hxe. subst x. apply (H t eq_refl).
      unfold silent_tags in Hin. unfold routed_tags. cbn [In] in *. tauto. }
    exists (after_send w default_response), [default_response].
    rewrite Hs.
    split; [now apply default_branch | ]. split; [apply Hsent | ].
    split; [discriminate | ].
    split; [intros Ht; exfalso; apply (H 91 Ht); cbn; auto | ].
    split; [intros Ht; exfalso; apply (H 87 Ht); cbn; auto | ].
    split; [intros Ht; exfalso; apply (H 89 Ht); cbn; auto | ].
    reflexivity.
Qed.

(** C4, as the code has it. A truncated frame raises no decode error and
    does not make the dispatcher close the session: it is dispatched by its
    byte 1 like any other message.  With byte 1 in 83, 81, 85 nothing is
    sent; otherwise exactly one frame is handed to [send]: the status frame
    for 91, the ATR frame for 87, a frame of tag 90 for 89, and 00 02 6D 82
    for any other value.  Once that [send] has returned (or when nothing was
    to be sent) the session is suspended in [recv] and goes on with the next
    turn; it ends at this message only when [send] itself raises. *)
Theorem C4_truncated_frame_is_dispatched
  (card : Type) (token : card -> bytes -> card * ffi_return) (start_time now : float)
  (sent : option exn) (message : bytes) (w : world card) :
  truncated message = true ->
  exists (w' : world card) (answer : list bytes),
    Server5.handle_message card token start_time now sent message w =
      (w', if is_silent (tag_recvd_of message) then Ret tt else send_result sent) /\
    frames_sent (trace w') = frames_sent (trace w) ++ answer /\
    (is_silent (tag_recvd_of message) = true -> answer = []) /\
    (tag_recvd_of message = Some 91 ->
     answer = [[x00; x5b; x00; x04; x55; x55; x55; x55]]) /\
    (tag_recvd_of message = Some 87 ->
     answer = [[x00; x58; x00; x0b;
                x3f; x95; x13; x81; x01; x80; x73; xff; x01; x00; x0b]]) /\
    (tag_recvd_of message = Some 89 ->
     exists payload frame, encode 90 payload = Ret frame /\ answer = [frame]) /\
    ((forall t, tag_recvd_of message = Some t -> ~ In t [91; 87; 89; 83; 81; 85]) ->
     answer = [[x00; x02; x6d; x82]]) /\
    (is_silent (tag_recvd_of message) = true \/ sent = None ->
     Server5.handle_client card token start_time [binary_turn now sent message] w =
       (w', Ret AWAITING_FRAME) /\
     forall rest,
       Server5.handle_client card token start_time
         (binary_turn now sent message :: rest) w =
         Server5.handle_client card token start_time rest w') /\
    (is_silent (tag_recvd_of message) = false ->
     Server5.handle_client card token start_time [binary_turn now sent message] w =
       (w', after_answer sent)).
Proof.
  intros _.
  destruct (dispatch_by_routing_byte card token start_time now sent message w)
    as (w' & answer & Hm & Hf & H0 & H91 & H87 & H89 & Hd).
  exists w', answer.
  split; [exact Hm | ]. split; [exact Hf | ]. split; [exact H0 | ].
  split; [exact H91 | ]. split; [exact H87 | ]. split; [exact H89 | ].
  split; [exact Hd | ]. split.
  - intros Hopen.
    assert (Hret : Server5.handle_message card token start_time now sent message w =
                   (w', Ret tt)).
    { rewrite Hm. destruct Hopen as [-> | ->]; [reflexivity | ].
      now destruct (is_silent (tag_recvd_of message)). }
    split.
    + now rewrite (handle_client_round card token start_time now sent message [] w w' Hret).
    + intros rest. now apply handle_client_round.
  - intros Hns. rewrite Hns in Hm.
    rewrite (handle_client_answer card token start_time now sent message [] w w' Hm).
    now destruct sent.
Qed.

Lemma C4_witness :
  truncated [x00; x5b; x00; x04] = true /\
  exists (w' : world nat) (answer : list bytes),
    Server5.handle_message nat echo_token t_start t_late None [x00; x5b; x00; x04] fresh =
      (w', Ret tt) /\
    frames_sent (trace w') = [] ++ answer /\
    (tag_recvd_of [x00; x5b; x00; x04] = Some 91 ->
     answer = [[x00; x5b; x00; x04; x55; x55; x55; x55]]) /\
    (is_silent (tag_recvd_of [x00; x5b; x00; x04]) = true \/ @None exn = None ->
     Server5.handle_client nat echo_token t_start
       [binary_turn t_late None [x00; x5b; x00; x04]] fresh = (w', Ret AWAITING_FRAME) /\
     forall rest,
       Server5.handle_client nat echo_token t_start
         (binary_turn t_late None [x00; x5b; x00; x04] :: rest) fresh =
         Server5.handle_client nat echo_token t_start rest w').
Proof.
  split; [reflexivity | ].
  destruct (C4_truncated_frame_is_dispatched nat echo_token t_start t_late None
              [x00; x5b; x00; x04] fresh eq_refl)
    as (w' & answer & Hm & Hf & _ & H91 & _ & _ & _ & Hopen & _).
  exists w', answer. split; [exact Hm | ]. split; [exact Hf | ].
  split; [exact H91 | exact Hopen].
Defined.

(** C4, as stated, fails: the message 00 5B 00 04 declares four payload
    bytes and carries none, yet the dispatcher answers it with the status
    frame and the session is not closed. *)
Lemma C4_counterexample :
  truncated [x00; x5b; x00; x04] = true /\
  Server5.handle_client nat echo_token t_start
    [binary_at t_late [x00; x5b; x00; x04]] fresh =
    (mkWorld 0%nat [Sent [x00; x5b; x00; x04; x55; x55; x55; x55]],
     Ret AWAITING_FRAME) /\
  frames_sent
    (trace (fst (Server5.handle_client nat echo_token t_start
                   [binary_at t_late [x00; x5b; x00; x04]] fresh))) <> [] /\
  state_after
    (Server5.handle_client nat echo_token t_start
       [binary_at t_late [x00; x5b; x00; x04]] fresh) <> CLOSED.
Proof.
  repeat split; try reflexivity; vm_compute; discriminate.
Qed.

(** C5. A binary message whose byte 1 is none of 91, 87, 89, 83, 81, 85 is
    answered with exactly the four bytes 00 02 6D 82, at any time, in both
    variants.  The dispatcher does not close the session: once the answer is
    sent the handler is suspended in [recv] and goes on with the next turn;
    the session ends at this turn only if [send] itself raises because the
    peer is gone. *)
Theorem C5_unknown_tag_default_response
  (card : Type) (token : card -> bytes -> card * ffi_return) (start_time now : float)
  (sent : option exn) (message : bytes) (w : world card) (w4 : world unit) :
  (forall t, tag_recvd_of message = Some t -> ~ In t [91; 87; 89; 83; 81; 85]) ->
  Server5.handle_message card token start_time now sent message w =
    (after_send w [x00; x02; x6d; x82], send_result sent) /\
  Server5.handle_client card token start_time [binary_turn now sent message] w =
    (after_send w [x00; x02; x6d; x82], after_answer sent) /\
  Server5.handle_client card token start_time [binary_at now message] w =
    (after_send w [x00; x02; x6d; x82], Ret AWAITING_FRAME) /\
  (forall rest,
      Server5.handle_client card token start_time (binary_at now message :: rest) w =
        Server5.handle_client card token start_time rest
          (after_send w [x00; x02; x6d; x82])) /\
  Server4.handle_message sent message w4 =
    (after_send w4 [x00; x02; x6d; x82], send_result sent) /\
  Server4.handle_client [binary_turn now sent message] w4 =
    (after_send w4 [x00; x02; x6d; x82], after_answer sent) /\
  Server4.handle_client [binary_at now message] w4 =
    (after_send w4 [x00; x02; x6d; x82], Ret AWAITING_FRAME) /\
  (forall rest,
      Server4.handle_client (binary_at now message :: rest) w4 =
        Server4.handle_client rest (after_send w4 [x00; x02; x6d; x82])).
Proof.
  intros Hu.
  exact (default_turn card token start_time now sent message w w4 Hu).
Qed.

Lemma C5_witness :
  (forall t, tag_recvd_of [x00; x07; x01] = Some t -> ~ In t [91; 87; 89; 83; 81; 85]) /\
  Server5.handle_client nat echo_token t_start [binary_at t_late [x00; x07; x01]] fresh =
    (mkWorld 0%nat [Sent [x00; x02; x6d; x82]], Ret AWAITING_FRAME) /\
  Server4.handle_client [binary_at t_late [x00; x07; x01]] fresh4 =
    (mkWorld tt [Sent [x00; x02; x6d; x82]], Ret AWAITING_FRAME) /\
  Server5.handle_client nat echo_token t_start
    [binary_turn t_late (Some ConnectionClosedError) [x00; x07; x01]] fresh =
    (mkWorld 0%nat [Sent [x00; x02; x6d; x82]], Ret CLOSED).
Proof.
  assert (Hu : forall t, tag_recvd_of [x00; x07; x01] = Some t ->
                         ~ In t [91; 87; 89; 83; 81; 85]).
  { intros t [= <-]. cbn. intros [H|[H|[H|[H|[H|[H|[]]]]]]]; discriminate H. }
  split; [exact Hu | ].
  pose proof (C5_unknown_tag_default_response nat echo_token t_start t_late None
                [x00; x07; x01] fresh fresh4 Hu) as (_ & _ & H5 & _ & _ & _ & H4 & _).
  pose proof (C5_unknown_tag_default_response nat echo_token t_start t_late
                (Some ConnectionClosedError)
                [x00; x07; x01] fresh fresh4 Hu) as (_ & Hc & _).
  split; [exact H5 | ]. split; [exact H4 | exact Hc].
Defined.

(** C6, as the code has it. Whatever a session receives, each frame it
    sends either keeps the encode invariant (bytes 2-3, read big-endian,
    count the bytes that follow them) or is the fixed default response
    00 02 6D 82; and the one frame that answers a message whose byte 1 is
    91, 87 or 89 keeps the invariant. *)
Theorem C6_sent_frames_shape
  (card : Type) (token : card -> bytes -> card * ffi_return) (start_time : float)
  (w : world card) :
  (forall turns : list iteration,
    exists new : list event,
      trace (fst (Server5.handle_client card token start_time turns w)) =
        trace w ++ new /\
      Forall (fun frame => length_field_ok frame = true \/ frame = [x00; x02; x6d; x82])
             (frames_sent new)) /\
  (forall (now : float) (sent : option exn) (message : bytes) (t : Z),
    tag_recvd_of message = Some t ->
    In t [91; 87; 89] ->
    exists frame : bytes,
      frames_sent
        (trace (fst (Server5.handle_message card token start_time now sent message w))) =
        frames_sent (trace w) ++ [frame] /\
      length_field_ok frame = true).
Proof.
  split.
  - intros turns. rewrite handle_client_world.
    exact (receive_loop_frames card token start_time turns w).
  - intros now sent message t Ht Hin.
    destruct (handle_message_returns card token start_time now sent message w)
      as (w' & new & Hm & Htr & Hs & Hd & Hn).
    rewrite Hm. cbn [fst]. rewrite Htr, frames_sent_app.
    assert (His : is_silent (tag_recvd_of message) = false).
    { rewrite Ht. cbn [In] in Hin.
      destruct Hin as [<-|[<-|[<-|[]]]]; reflexivity. }
    rewrite His in Hn.
    destruct (frames_sent new) as [|frame [|frame' others]]; [discriminate Hn | | discriminate Hn].
    exists frame. split; [reflexivity | ].
    apply Forall_inv in Hs. destruct Hs as [Hok|Hdef]; [exact Hok | ].
    exfalso. apply (Hd (or_introl Hdef) t Ht). exact Hin.
Qed.

Lemma C6_witness :
  tag_recvd_of [x00; x57] = Some 87 /\
  In 87 [91; 87; 89] /\
  exists frame : bytes,
    frames_sent
      (trace (fst (Server5.handle_message nat echo_token t_start t_late None
                     [x00; x57] fresh))) = [frame] /\
    length_field_ok frame = true.
Proof.
  split; [reflexivity | ]. split; [cbn; auto | ].
  exact (proj2 (C6_sent_frames_shape nat echo_token t_start fresh)
           t_late None [x00; x57] 87 eq_refl (or_intror (or_introl eq_refl))).
Defined.

(** C6, as stated, fails on the unknown-tag answer: the message 00 07 01 is
    answered with 00 02 6D 82, whose length field reads 6D82 = 28034 while
    no payload byte follows. *)
Lemma C6_counterexample :
  frames_sent
    (trace (fst (Server5.handle_client nat echo_token t_start
                   [binary_at t_late [x00; x07; x01]] fresh))) =
    [[x00; x02; x6d; x82]] /\
  from_bytes [x6d; x82] = 28034 /\
  len (frame_payload [x00; x02; x6d; x82]) = 0 /\
  length_field_ok [x00; x02; x6d; x82] = false.
Proof.
  repeat split; reflexivity.
Qed.



(** C8. A binary message whose byte 1 is 83, 81 or 85 leaves the world as
    it was: nothing is sent, the token is not called, the session stays
    suspended in [recv], and the turns that follow are handled as if the
    message had not arrived. *)
Theorem C8_silent_tags
  (card : Type) (token : card -> bytes -> card * ffi_return) (start_time now : float)
  (sent : option exn) (message : bytes) (t : Z) (w : world card) :
  tag_recvd_of message = Some t ->
  In t [83; 81; 85] ->
  Server5.handle_message card token start_time now sent message w = (w, Ret tt) /\
  Server5.handle_client card token start_time [binary_turn now sent message] w =
    (w, Ret AWAITING_FRAME) /\
  (forall rest,
      Server5.handle_client card token start_time
        (binary_turn now sent message :: rest) w =
        Server5.handle_client card token start_time rest w) /\
  Server5.handle_client card token start_time [binary_at now message] w =
    (w, Ret AWAITING_FRAME) /\
  (forall rest,
      Server5.handle_client card token start_time (binary_at now message :: rest) w =
        Server5.handle_client card token start_time rest w).
Proof.
  intros Ht Hin.
  assert (Hs : is_silent (tag_recvd_of message) = true).
  { rewrite Ht. cbn [is_silent]. apply existsb_exists.
    exists t. split; [exact Hin | apply Z.eqb_refl]. }
  assert (Hm : forall s, Server5.handle_message card token start_time now s message w =
                         (w, Ret tt)).
  { intros s. exact (silent_branch card token start_time now s message w Hs). }
  split; [apply Hm | ]. split.
  { now rewrite (handle_client_round card token start_time now sent message [] w w (Hm sent)). }
  split; [intros rest; apply handle_client_round; apply Hm | ].
  split; [apply handle_client_last; apply Hm | ].
  intros rest. apply handle_client_step. apply Hm.
Qed.

Lemma C8_witness :
  tag_recvd_of [x00; x55; x01] = Some 85 /\
  In 85 [83; 81; 85] /\
  Server5.handle_client nat echo_token t_start
    [binary_at t_late [x00; x55; x01]; binary_at t_late [x00; x5b]] fresh =
    (mkWorld 0%nat [Sent [x00; x5b; x00; x04; x55; x55; x55; x55]],
     Ret AWAITING_FRAME).
Proof.
  split; [reflexivity | ]. split; [cbn; auto | ].
  rewrite (proj2 (proj2 (proj2 (proj2
             (C8_silent_tags nat echo_token t_start t_late None
                [x00; x55; x01] 85 fresh eq_refl
                (or_intror (or_intror (or_introl eq_refl)))))))
             [binary_at t_late [x00; x5b]]).
  reflexivity.
Defined.



(** C10. A binary message of zero or one byte has no byte 1; the dispatcher
    takes the default branch and answers 00 02 6D 82, in both variants.  It
    does not close the session: once the answer is sent the handler is
    suspended in [recv] and goes on with the next turn; the session ends at
    this turn only if [send] itself raises because the peer is gone. *)
Theorem C10_short_message
  (card : Type) (token : card -> bytes -> card * ffi_return) (start_time now : float)
  (sent : option exn) (message : bytes) (w : world card) (w4 : world unit) :
  (List.length message <= 1)%nat ->
  tag_recvd_of message = None /\
  Server5.handle_message card token start_time now sent message w =
    (after_send w [x00; x02; x6d; x82], send_result sent) /\
  Server5.handle_client card token start_time [binary_turn now sent message] w =
    (after_send w [x00; x02; x6d; x82], after_answer sent) /\
  Server5.handle_client card token start_time [binary_at now message] w =
    (after_send w [x00; x02; x6d; x82], Ret AWAITING_FRAME) /\
  (forall rest,
      Server5.handle_client card token start_time (binary_at now message :: rest) w =
        Server5.handle_client card token start_time rest
          (after_send w [x00; x02; x6d; x82])) /\
  Server4.handle_message sent message w4 =
    (after_send w4 [x00; x02; x6d; x82], send_result sent) /\
  Server4.handle_client [binary_turn now sent message] w4 =
    (after_send w4 [x00; x02; x6d; x82], after_answer sent) /\
  Server4.handle_client [binary_at now message] w4 =
    (after_send w4 [x00; x02; x6d; x82], Ret AWAITING_FRAME) /\
  (forall rest,
      Server4.handle_client (binary_at now message :: rest) w4 =
        Server4.handle_client rest (after_send w4 [x00; x02; x6d; x82])).
Proof.
  intros Hl.
  pose proof (short_message_untagged message Hl) as Hu.
  split.
  { destruct message as [|b0 [|b1 message]]; [reflexivity | reflexivity | ].
    cbn [List.length] in Hl. lia. }
  exact (default_turn card token start_time now sent message w w4 Hu).
Qed.

Lemma C10_witness :
  (List.length [x59] <= 1)%nat /\
  Server5.handle_client nat echo_token t_start
    [binary_at t_late [x59]; binary_at t_late []] fresh =
    (mkWorld 0%nat [Sent [x00; x02; x6d; x82]; Sent [x00; x02; x6d; x82]],
     Ret AWAITING_FRAME) /\
  Server4.handle_client [binary_at t_late [x59]] fresh4 =
    (mkWorld tt [Sent [x00; x02; x6d; x82]], Ret AWAITING_FRAME) /\
  Server4.handle_client [binary_turn t_late (Some ConnectionClosedError) [x59]] fresh4 =
    (mkWorld tt [Sent [x00; x02; x6d; x82]], Ret CLOSED).
Proof.
  assert (Hl : (List.length [x59] <= 1)%nat) by (cbn; lia).
  split; [exact Hl | ].
  pose proof (C10_short_message nat echo_token t_start t_late None [x59] fresh fresh4 Hl)
    as (_ & _ & _ & _ & Hstep & _ & _ & H4 & _).
  pose proof (C10_short_message nat echo_token t_start t_late
                (Some ConnectionClosedError) [x59] fresh fresh4 Hl)
    as (_ & _ & _ & _ & _ & _ & Hc & _).
  split; [ | split; [exact H4 | exact Hc]].
  rewrite (Hstep [binary_at t_late []]). reflexivity.
Defined.

(** * Further properties of the dispatchers *)

Lemma atr_branch4 (sent : option exn) (message : bytes) (w : world unit) :
  tag_recvd_of message = Some 87 ->
  Server4.handle_message sent message w = (after_send w atr_frame, send_result sent).
Proof.
  intros Ht. unfold Server4.handle_message. rewrite Ht. reflexivity.
Qed.

Lemma silent_branch4 (sent : option exn) (message : bytes) (w : world unit) :
  is_silent (tag_recvd_of message) = true ->
  Server4.handle_message sent message w = (w, Ret tt).
Proof.
  unfold is_silent, Server4.handle_message.
  destruct (tag_recvd_of message) as [t|]; [ | discriminate].
  unfold silent_tags. cbn [existsb orb]. intros H.
  destruct (Z.eqb_spec t 83) as [E|_]; [now rewrite E | ].
  destruct (Z.eqb_spec t 81) as [E|_]; [now rewrite E | ].
  destruct (Z.eqb_spec t 85) as [E|_]; [now rewrite E | discriminate].
Qed.



(** Dropping the text turns of a session. *)
Lemma drop_text_cons (turn : iteration) (rest : list iteration) :
  filter (fun t => negb (text_turn t)) (turn :: rest) =
    if text_turn turn then filter (fun t => negb (text_turn t)) rest
    else turn :: filter (fun t => negb (text_turn t)) rest.
Proof. cbn [filter]. now destruct (text_turn turn). Qed.

Lemma receive_loop_drop_text
  (card : Type) (token : card -> bytes -> card * ffi_return) (start_time : float)
  (turns : list iteration) :
  forall w : world card,
    Server5.receive_loop card token start_time
      (filter (fun t => negb (text_turn t)) turns) w =
    Server5.receive_loop card token start_time turns w.
Proof.
  induction turns as [|turn rest IH]; intros w; [reflexivity | ].
  rewrite drop_text_cons. unfold text_turn.
  destruct turn as [brk r now sent]. cbn [break_loop recv].
  destruct brk; [reflexivity | ]. cbn [negb andb].
  destruct r as [[data|s]| |e];
    cbn [Server5.receive_loop break_loop recv time_time send_raises].
  - unfold bind. destruct (Server5.handle_message card token start_time now sent data w)
      as [w' [[]|e]]; [apply IH | reflexivity].
  - apply IH.
  - reflexivity.
  - reflexivity.
Qed.

Lemma receive_loop_drop_text4 (turns : list iteration) :
  forall w : world unit,
    Server4.receive_loop (filter (fun t => negb (text_turn t)) turns) w =
    Server4.receive_loop turns w.
Proof.
  induction turns as [|turn rest IH]; intros w; [reflexivity | ].
  rewrite drop_text_cons. unfold text_turn.
  destruct turn as [brk r now sent]. cbn [break_loop recv].
  destruct brk; [reflexivity | ]. cbn [negb andb].
  destruct r as [[data|s]| |e];
    cbn [Server4.receive_loop break_loop recv time_time send_raises].
  - unfold bind. destruct (Server4.handle_message sent data w)
      as [w' [[]|e]]; [apply IH | reflexivity].
  - apply IH.
  - reflexivity.
  - reflexivity.
Qed.

(** X2. Text messages leave no mark on a session: removing from the input
    every turn in which a text message arrives (while the flag is down)
    changes neither what the session sends, nor the calls of the token, nor
    the state it ends in; in server-4.py as well. *)
Theorem X2_text_messages_ignored
  (card : Type) (token : card -> bytes -> card * ffi_return) (start_time : float)
  (turns : list iteration) (w : world card) (w4 : world unit) :
  Server5.handle_client card token start_time
    (filter (fun t => negb (text_turn t)) turns) w =
    Server5.handle_client card token start_time turns w /\
  Server4.handle_client (filter (fun t => negb (text_turn t)) turns) w4 =
    Server4.handle_client turns w4.
Proof.
  unfold Server5.handle_client, Server4.handle_client.
  now rewrite receive_loop_drop_text, receive_loop_drop_text4.
Qed.

(** X3. The token is called only for a Command APDU past the warm-up
    window, and then once, with [message[2::]]: for every binary message the
    commands passed to the token grow by [forwarded], which is empty unless
    byte 1 is 89 and the clock reads more than 5 s after the start. *)
Theorem X3_token_calls
  (card : Type) (token : card -> bytes -> card * ffi_return) (start_time now : float)
  (sent : option exn) (message : bytes) (w : world card) :
  commands_passed
    (trace (fst (Server5.handle_message card token start_time now sent message w))) =
    commands_passed (trace w) ++ forwarded start_time now message /\
  (forwarded start_time now message = [] ->
   softoken (fst (Server5.handle_message card token start_time now sent message w)) =
     softoken w).
Proof.
  unfold forwarded, in_warmup.
  destruct (tag_cases message) as [H|[H|[H|[H|H]]]].
  - rewrite (status_branch card token start_time now sent message w H), H.
    cbn. rewrite commands_passed_app. cbn. now rewrite app_nil_r.
  - rewrite (atr_branch card token start_time now sent message w H), H.
    cbn. rewrite commands_passed_app. cbn. now rewrite app_nil_r.
  - rewrite H. cbn [Z.eqb Pos.eqb andb].
    destruct (PrimFloat.leb (PrimFloat.sub now start_time) 5) eqn:Hw; cbn [negb].
    + rewrite (warmup_branch card token start_time now sent message w H Hw).
      cbn. rewrite commands_passed_app. cbn. now rewrite app_nil_r.
    + split; [ | discriminate].
      rewrite (apdu_branch card token start_time now sent message w H Hw).
      pose proof (handle_apdu_trace card token (slice_from message 2) w) as Htr.
      destruct (Server5.handle_apdu card token (slice_from message 2) w)
        as [w' [resp|e]]; cbn [fst] in *;
        unfold after_send; cbn [trace]; rewrite Htr, !commands_passed_app;
        cbn [commands_passed]; now rewrite app_nil_r.
  - rewrite (silent_branch card token start_time now sent message w H).
    cbn [fst]. unfold is_silent in H.
    destruct (tag_recvd_of message) as [t|]; [ | discriminate].
    assert ((t =? 89) = false) as ->.
    { apply Z.eqb_neq. intros ->. discriminate H. }
    cbn [andb]. now rewrite app_nil_r.
  - rewrite (default_branch card token start_time now sent message w H).
    cbn [fst after_send trace softoken]. rewrite commands_passed_app. cbn [commands_passed].
    destruct (tag_recvd_of message) as [t|]; [ | now rewrite app_nil_r].
    assert ((t =? 89) = false) as ->.
    { apply Z.eqb_neq. intros ->. apply (H 89 eq_refl). cbn. auto. }
    cbn [andb]. now rewrite app_nil_r.
Qed.

(** X4. server-5.py reads nothing of a binary message but byte 1 and
    [message[2::]]: two messages that agree on both are handled alike, so
    byte 0 never matters.  server-4.py reads byte 1 only. *)
Theorem X4_only_byte1_and_tail
  (card : Type) (token : card -> bytes -> card * ffi_return) (start_time now : float)
  (sent : option exn) (m1 m2 : bytes) (w : world card) (w4 : world unit) :
  tag_recvd_of m1 = tag_recvd_of m2 ->
  (slice_from m1 2 = slice_from m2 2 ->
   Server5.handle_message card token start_time now sent m1 w =
     Server5.handle_message card token start_time now sent m2 w) /\
  Server4.handle_message sent m1 w4 = Server4.handle_message sent m2 w4.
Proof.
  intros Ht. split.
  - intros Hs. unfold Server5.handle_message. now rewrite Ht, Hs.
  - unfold Server4.handle_message. now rewrite Ht.
Qed.

Lemma X4_witness :
  tag_recvd_of [x00; x59; x80; xca] = tag_recvd_of [xff; x59; x80; xca] /\
  Server5.handle_message nat echo_token t_start t_late None [x00; x59; x80; xca] fresh =
    Server5.handle_message nat echo_token t_start t_late None [xff; x59; x80; xca] fresh.
Proof.
  split; [reflexivity | ].
  exact (proj1 (X4_only_byte1_and_tail nat echo_token t_start t_late None
                  [x00; x59; x80; xca] [xff; x59; x80; xca] fresh fresh4 eq_refl)
           eq_refl).
Defined.

(** ** The response buffer of [handle_apdu] *)

Lemma slice_to_len {A : Type} (a : list A) (stop : Z) :
  len (slice_to a stop) =
    if stop <? 0 then Z.max 0 (stop + len a) else Z.min stop (len a).
Proof.
  unfold slice_to, len. rewrite length_firstn.
  destruct (stop <? 0) eqn:E.
  - apply Z.ltb_lt in E. lia.
  - apply Z.ltb_ge in E. lia.
Qed.

Lemma slice_to_prefix {A : Type} (a b : list A) (stop : Z) :
  0 <= stop <= len a ->
  slice_to (a ++ b) stop = firstn (Z.to_nat stop) a.
Proof.
  intros Hs. unfold slice_to.
  destruct (stop <? 0) eqn:E; [apply Z.ltb_lt in E; lia | ].
  assert (Hl : len (a ++ b) = len a + len b).
  { unfold len. rewrite length_app. lia. }
  pose proof (len_nonneg b) as Hb.
  rewrite Z.min_l by lia.
  rewrite firstn_app.
  replace (Z.to_nat stop - List.length a)%nat with 0%nat by (unfold len in Hs; lia).
  cbn [firstn]. apply app_nil_r.
Qed.

Lemma firstn_repeat {A : Type} (x : A) (n m : nat) :
  firstn n (repeat x m) = repeat x (Nat.min n m).
Proof.
  revert m. induction n as [|n IH]; intros [|m]; cbn; try reflexivity.
  now rewrite IH.
Qed.

Lemma response_buffer_split (written : bytes) :
  len written <= 10000 ->
  Server5.response_buffer written =
    written ++ repeat x00 (Z.to_nat (10000 - len written)).
Proof.
  intros Hl. unfold Server5.response_buffer, Server5.response_capacity.
  rewrite firstn_app.
  rewrite firstn_all2 by (unfold len in Hl; lia).
  f_equal. rewrite firstn_repeat. f_equal. unfold len in *. lia.
Qed.

(** X5. [handle_apdu] in the ordinary case: when the library has written
    [written] (at most 10000 bytes) and reports a length between 0 and
    [len(written)], the answer is the first [response_len] bytes it wrote,
    the token having been called once with the command. *)
Theorem X5_handle_apdu_prefix
  (card : Type) (token : card -> bytes -> card * ffi_return)
  (command written : bytes) (response_len : Z) (c' : card) (w : world card) :
  token (softoken w) command = (c', FfiReturned written response_len) ->
  len written <= 10000 ->
  0 <= response_len <= len written ->
  Server5.handle_apdu card token command w =
    (mkWorld c' (trace w ++ [SendApdu command]),
     Ret (firstn (Z.to_nat response_len) written)).
Proof.
  intros Hc Hw Hn. unfold Server5.handle_apdu. cbn [softoken trace].
  rewrite Hc. rewrite (response_buffer_split written Hw).
  now rewrite slice_to_prefix.
Qed.

Lemma X5_witness :
  echo_token 0%nat [x80; xca] = (1%nat, FfiReturned [x80; xca; x90; x00] 4) /\
  len [x80; xca; x90; x00] <= 10000 /\
  0 <= 4 <= len [x80; xca; x90; x00] /\
  Server5.handle_apdu nat echo_token [x80; xca] fresh =
    (mkWorld 1%nat [SendApdu [x80; xca]], Ret [x80; xca; x90; x00]).
Proof.
  assert (H1 : len [x80; xca; x90; x00] <= 10000) by (cbn; lia).
  assert (H2 : 0 <= 4 <= len [x80; xca; x90; x00]) by (cbn; lia).
  split; [reflexivity | ]. split; [exact H1 | ]. split; [exact H2 | ].
  exact (X5_handle_apdu_prefix nat echo_token [x80; xca] [x80; xca; x90; x00] 4
           1%nat fresh eq_refl H1 H2).
Defined.

(** X6. [handle_apdu] when the library reports more than it wrote: for a
    reported length between [len(written)] and 10000 the answer is what was
    written followed by zero bytes of the zero-initialised buffer, up to the
    reported length. *)
Theorem X6_handle_apdu_zero_padding
  (card : Type) (token : card -> bytes -> card * ffi_return)
  (command written : bytes) (response_len : Z) (c' : card) (w : world card) :
  token (softoken w) command = (c', FfiReturned written response_len) ->
  len written <= response_len <= 10000 ->
  Server5.handle_apdu card token command w =
    (mkWorld c' (trace w ++ [SendApdu command]),
     Ret (written ++ repeat x00 (Z.to_nat (response_len - len written)))).
Proof.
  intros Hc Hn. unfold Server5.handle_apdu. cbn [softoken trace].
  rewrite Hc. rewrite (response_buffer_split written) by lia.
  do 2 f_equal. unfold slice_to.
  pose proof (len_nonneg written) as Hw.
  destruct (response_len <? 0) eqn:E; [apply Z.ltb_lt in E; lia | ].
  assert (Hl : len (written ++ repeat x00 (Z.to_nat (10000 - len written))) = 10000).
  { unfold len. rewrite length_app, repeat_length. unfold len in *. lia. }
  rewrite Hl, Z.min_l by lia.
  rewrite firstn_app, firstn_all2 by (unfold len in *; lia).
  f_equal. rewrite firstn_repeat. f_equal. unfold len in *. lia.
Qed.

Lemma X6_witness :
  padding_token 0%nat [x80] = (1%nat, FfiReturned [x61] 3) /\
  len [x61] <= 3 <= 10000 /\
  Server5.handle_apdu nat padding_token [x80] fresh =
    (mkWorld 1%nat [SendApdu [x80]], Ret [x61; x00; x00]).
Proof.
  assert (H : len [x61] <= 3 <= 10000) by (cbn; lia).
  split; [reflexivity | ]. split; [exact H | ].
  exact (X6_handle_apdu_zero_padding nat padding_token
           [x80] [x61] 3 1%nat fresh eq_refl H).
Defined.

(** X7. The length of what [handle_apdu] returns, for any length the
    library reports: a length of 10000 or more gives the whole buffer, a
    negative length counts back from the end of the buffer (no exception),
    and one below -10000 gives the empty answer. *)
Theorem X7_handle_apdu_length
  (card : Type) (token : card -> bytes -> card * ffi_return)
  (command written resp : bytes) (response_len : Z) (c' : card) (w w' : world card) :
  token (softoken w) command = (c', FfiReturned written response_len) ->
  Server5.handle_apdu card token command w = (w', Ret resp) ->
  len resp =
    if response_len <? 0 then Z.max 0 (response_len + 10000)
    else Z.min response_len 10000.
Proof.
  intros Hc. unfold Server5.handle_apdu. cbn [softoken trace]. rewrite Hc.
  intros [= _ <-]. rewrite slice_to_len.
  now rewrite len_response_buffer.
Qed.

Lemma X7_witness :
  negative_token 0%nat [x80] = (1%nat, FfiReturned [x61; x62; x63] (-9998)) /\
  Server5.handle_apdu nat negative_token [x80] fresh =
    (mkWorld 1%nat [SendApdu [x80]], Ret [x61; x62]) /\
  len [x61; x62] = 2.
Proof.
  split; [reflexivity | ]. split; [reflexivity | ].
  exact (X7_handle_apdu_length nat negative_token [x80] [x61; x62; x63] [x61; x62]
           (-9998) 1%nat fresh (mkWorld 1%nat [SendApdu [x80]]) eq_refl eq_refl).
Defined.

(** ** Whole sessions *)

Lemma world_eta {card : Type} (w : world card) :
  mkWorld (softoken w) (trace w ++ []) = w.
Proof. destruct w as [c tr]. cbn. now rewrite app_nil_r. Qed.

Lemma not_routed_not_silent (message : bytes) :
  (forall t, tag_recvd_of message = Some t -> ~ In t routed_tags) ->
  is_silent (tag_recvd_of message) = false.
Proof.
  intros H. destruct (tag_recvd_of message) as [t|] eqn:E; [ | reflexivity].
  cbn [is_silent]. destruct (existsb (Z.eqb t) silent_tags) eqn:Ex; [ | reflexivity].
  exfalso. apply existsb_exists in Ex. destruct Ex as (x & Hin & Hx).
  apply Z.eqb_eq in Hx. subst x. apply (H t eq_refl).
  unfold silent_tags in Hin. unfold routed_tags. cbn [In] in *. tauto.
Qed.

(** What a message does in the warm-up window, or to server-4.py at any
    time: it appends events that do not depend on the token, and ends as
    the [send] it makes ends. *)
Lemma handle_message_warm
  (card : Type) (token : card -> bytes -> card * ffi_return) (start_time now : float)
  (sent : option exn) (message : bytes) :
  in_warmup start_time now = true ->
  exists new : list event,
    (forall w : world card,
        Server5.handle_message card token start_time now sent message w =
          (mkWorld (softoken w) (trace w ++ new),
           if is_silent (tag_recvd_of message) then Ret tt else send_result sent)) /\
    (forall w4 : world unit,
        Server4.handle_message sent message w4 =
          (mkWorld (softoken w4) (trace w4 ++ new),
           if is_silent (tag_recvd_of message) then Ret tt else send_result sent)) /\
    commands_passed new = [].
Proof.
  intros Hw. unfold in_warmup in Hw.
  destruct (tag_cases message) as [H|[H|[H|[H|H]]]].
  - exists [Sent status_frame]. rewrite H. cbn [is_silent existsb silent_tags Z.eqb Pos.eqb orb].
    split; [ | split; [ | reflexivity]]; intros w.
    + now apply status_branch.
    + now apply status_branch4.
  - exists [Sent atr_frame]. rewrite H. cbn [is_silent existsb silent_tags Z.eqb Pos.eqb orb].
    split; [ | split; [ | reflexivity]]; intros w.
    + now apply atr_branch.
    + now apply atr_branch4.
  - exists [Sent placeholder_frame]. rewrite H.
    cbn [is_silent existsb silent_tags Z.eqb Pos.eqb orb].
    split; [ | split; [ | reflexivity]]; intros w.
    + now apply warmup_branch.
    + now apply apdu_branch4.
  - exists []. rewrite H. split; [ | split; [ | reflexivity]]; intros w; rewrite world_eta.
    + now apply silent_branch.
    + now apply silent_branch4.
  - exists [Sent default_response]. rewrite (not_routed_not_silent message H).
    split; [ | split; [ | reflexivity]]; intros w.
    + now apply default_branch.
    + now apply default_branch4.
Qed.

Lemma receive_loop_warm
  (card : Type) (token : card -> bytes -> card * ffi_return) (start_time : float)
  (turns : list iteration) :
  forallb (warm_turn start_time) turns = true ->
  exists new : list event,
    (forall w : world card,
        fst (Server5.receive_loop card token start_time turns w) =
          mkWorld (softoken w) (trace w ++ new) /\
        forall w4 : world unit,
          fst (Server4.receive_loop turns w4) =
            mkWorld (softoken w4) (trace w4 ++ new) /\
          snd (Server5.receive_loop card token start_time turns w) =
            snd (Server4.receive_loop turns w4)) /\
    commands_passed new = [].
Proof.
  induction turns as [|turn rest IH]; intros Hall.
  - exists []. split; [ | reflexivity]. intros w. cbn. rewrite world_eta.
    split; [reflexivity | ]. intros w4. now rewrite world_eta.
  - cbn [forallb] in Hall. apply andb_true_iff in Hall. destruct Hall as [Hw Hrest].
    specialize (IH Hrest). destruct IH as (new2 & IH & Hc2).
    cbn [Server5.receive_loop Server4.receive_loop].
    destruct (break_loop turn).
    { exists []. split; [ | reflexivity]. intros w. cbn. rewrite world_eta.
      split; [reflexivity | ]. intros w4. now rewrite world_eta. }
    destruct (recv turn) as [[data|s]| |e].
    + destruct (handle_message_warm card token start_time (time_time turn)
                  (send_raises turn) data Hw) as (new1 & H5 & H4 & Hc1).
      destruct (if is_silent (tag_recvd_of data) then Ret tt
                else send_result (send_raises turn)) as [[]|e] eqn:Er.
      * exists (new1 ++ new2). split.
        -- intros w. unfold bind. rewrite H5.
           destruct (IH (mkWorld (softoken w) (trace w ++ new1))) as [E5 IH4].
           rewrite E5. cbn [softoken trace]. rewrite <- app_assoc.
           split; [reflexivity | ]. intros w4. rewrite H4.
           destruct (IH4 (mkWorld (softoken w4) (trace w4 ++ new1))) as [E4 Es].
           rewrite E4. cbn [softoken trace]. rewrite <- app_assoc. now split.
        -- rewrite commands_passed_app, Hc1, Hc2. reflexivity.
      * exists new1. split; [ | exact Hc1].
        intros w. unfold bind. rewrite H5. cbn [fst snd].
        split; [reflexivity | ]. intros w4. rewrite H4. now split.
    + exists new2. split; [exact IH | exact Hc2].
    + exists []. split; [ | reflexivity]. intros w. cbn. rewrite world_eta.
      split; [reflexivity | ]. intros w4. now rewrite world_eta.
    + exists []. split; [ | reflexivity]. intros w. cbn. rewrite world_eta.
      split; [reflexivity | ]. intros w4. now rewrite world_eta.
Qed.

(** X8. While the clock stays in the warm-up window, server-5.py is
    server-4.py: a session whose turns all read a clock at most 5 s after
    the start sends exactly the frames server-4.py sends on the same input,
    ends in the same way, and leaves the token untouched and uncalled. *)
Theorem X8_warmup_session_is_server4
  (card : Type) (token : card -> bytes -> card * ffi_return) (start_time : float)
  (turns : list iteration) (w : world card) (w4 : world unit) :
  forallb (warm_turn start_time) turns = true ->
  exists new : list event,
    fst (Server5.handle_client card token start_time turns w) =
      mkWorld (softoken w) (trace w ++ new) /\
    fst (Server4.handle_client turns w4) = mkWorld (softoken w4) (trace w4 ++ new) /\
    snd (Server5.handle_client card token start_time turns w) =
      snd (Server4.handle_client turns w4) /\
    commands_passed new = [].
Proof.
  intros Hall.
  destruct (receive_loop_warm card token start_time turns Hall) as (new & H & Hc).
  destruct (H w) as [E5 H4]. destruct (H4 w4) as [E4 Es].
  exists new. unfold Server5.handle_client, Server4.handle_client.
  destruct (Server5.receive_loop card token start_time turns w) as [w5' r5].
  destruct (Server4.receive_loop turns w4) as [w4' r4].
  cbn [fst snd] in *. subst r4 w5' w4'.
  destruct r5 as [s|[]]; cbn [fst snd]; repeat split; try reflexivity; exact Hc.
Qed.

Lemma X8_witness :
  forallb (warm_turn t_start)
    [binary_at t_warm [x00; x59; x80; xca]; binary_at t_warm [x00; x5b]] = true /\
  exists new : list event,
    fst (Server5.handle_client nat echo_token t_start
           [binary_at t_warm [x00; x59; x80; xca]; binary_at t_warm [x00; x5b]] fresh) =
      mkWorld 0%nat ([] ++ new) /\
    fst (Server4.handle_client
           [binary_at t_warm [x00; x59; x80; xca]; binary_at t_warm [x00; x5b]] fresh4) =
      mkWorld tt ([] ++ new) /\
    snd (Server5.handle_client nat echo_token t_start
           [binary_at t_warm [x00; x59; x80; xca]; binary_at t_warm [x00; x5b]] fresh) =
      snd (Server4.handle_client
             [binary_at t_warm [x00; x59; x80; xca]; binary_at t_warm [x00; x5b]] fresh4) /\
    commands_passed new = [].
Proof.
  split; [reflexivity | ].
  exact (X8_warmup_session_is_server4 nat echo_token t_start
           [binary_at t_warm [x00; x59; x80; xca]; binary_at t_warm [x00; x5b]]
           fresh fresh4 eq_refl).
Defined.

(** A message whose [send], if any, returns makes the dispatcher return. *)
Lemma handle_message_sent
  (card : Type) (token : card -> bytes -> card * ffi_return) (start_time now : float)
  (message : bytes) (w : world card) :
  exists w' : world card,
    Server5.handle_message card token start_time now None message w = (w', Ret tt).
Proof.
  destruct (handle_message_returns card token start_time now None message w)
    as (w' & new & Hm & _).
  exists w'. rewrite Hm. now destruct (is_silent (tag_recvd_of message)).
Qed.

(** A run of message turns whose sends return leaves the loop waiting, and
    what follows the run is handled from the world the run has made. *)
Lemma receive_loop_app
  (card : Type) (token : card -> bytes -> card * ffi_return) (start_time : float)
  (turns1 : list iteration) :
  forallb message_turn turns1 = true ->
  forallb sends_return turns1 = true ->
  forall w : world card,
  exists w1 : world card,
    Server5.receive_loop card token start_time turns1 w = (w1, Ret AWAITING_FRAME) /\
    forall turns2,
      Server5.receive_loop card token start_time (turns1 ++ turns2) w =
        Server5.receive_loop card token start_time turns2 w1.
Proof.
  induction turns1 as [|turn rest IH]; intros Hall Hsend w.
  - exists w. split; reflexivity.
  - cbn [forallb] in Hall, Hsend.
    apply andb_true_iff in Hall. destruct Hall as [Hm Hrest].
    apply andb_true_iff in Hsend. destruct Hsend as [Hs Hsrest].
    unfold message_turn in Hm. apply andb_true_iff in Hm. destruct Hm as [Hb Hr].
    unfold sends_return in Hs.
    cbn [app Server5.receive_loop].
    destruct (break_loop turn); [discriminate Hb | ].
    destruct (send_raises turn) as [e|]; [discriminate Hs | ].
    destruct (recv turn) as [[data|s]| |e]; try discriminate Hr.
    + destruct (handle_message_sent card token start_time (time_time turn) data w)
        as (w' & Hm).
      unfold bind. rewrite Hm. apply (IH Hrest Hsrest).
    + apply (IH Hrest Hsrest).
Qed.

Lemma handle_message4_sent (message : bytes) (w : world unit) :
  exists w' : world unit, Server4.handle_message None message w = (w', Ret tt).
Proof.
  destruct (tag_cases message) as [H|[H|[H|[H|H]]]].
  - eexists. now apply status_branch4.
  - eexists. now apply atr_branch4.
  - eexists. now apply apdu_branch4.
  - eexists. now apply silent_branch4.
  - eexists. now apply default_branch4.
Qed.

Lemma receive_loop4_waits (turns : list iteration) :
  forallb message_turn turns = true ->
  forallb sends_return turns = true ->
  forall w : world unit,
  exists w1 : world unit, Server4.receive_loop turns w = (w1, Ret AWAITING_FRAME).
Proof.
  induction turns as [|turn rest IH]; intros Hall Hsend w.
  - now exists w.
  - cbn [forallb] in Hall, Hsend.
    apply andb_true_iff in Hall. destruct Hall as [Hm Hrest].
    apply andb_true_iff in Hsend. destruct Hsend as [Hs Hsrest].
    unfold message_turn in Hm. apply andb_true_iff in Hm. destruct Hm as [Hb Hr].
    unfold sends_return in Hs.
    cbn [Server4.receive_loop].
    destruct (break_loop turn); [discriminate Hb | ].
    destruct (send_raises turn) as [e|]; [discriminate Hs | ].
    destruct (recv turn) as [[data|s]| |e]; try discriminate Hr.
    + destruct (handle_message4_sent data w) as (w' & Hm).
      unfold bind. rewrite Hm. apply (IH Hrest Hsrest).
    + apply (IH Hrest Hsrest).
Qed.

(** X9. No message can make the dispatcher end a session: after any run of
    turns in which messages arrive (binary or text, of any content, the flag
    down) and every answer handed to [send] is sent, the handler has not
    raised and is suspended in [recv]; in server-4.py as well. *)
Theorem X9_messages_never_end_session
  (card : Type) (token : card -> bytes -> card * ffi_return) (start_time : float)
  (turns : list iteration) (w : world card) (w4 : world unit) :
  forallb message_turn turns = true ->
  forallb sends_return turns = true ->
  (exists w1 : world card,
      Server5.handle_client card token start_time turns w = (w1, Ret AWAITING_FRAME)) /\
  (exists w1 : world unit,
      Server4.handle_client turns w4 = (w1, Ret AWAITING_FRAME)).
Proof.
  intros Hall Hsend. split.
  - destruct (receive_loop_app card token start_time turns Hall Hsend w) as (w1 & H1 & _).
    exists w1. unfold Server5.handle_client. now rewrite H1.
  - destruct (receive_loop4_waits turns Hall Hsend w4) as (w1 & H1).
    exists w1. unfold Server4.handle_client. now rewrite H1.
Qed.

Lemma X9_witness :
  forallb message_turn
    [binary_at t_late [x00; x59; x80; xca];
     mkIteration false (Received (Text "hi")) t_late None] = true /\
  forallb sends_return
    [binary_at t_late [x00; x59; x80; xca];
     mkIteration false (Received (Text "hi")) t_late None] = true /\
  (exists w1 : world nat,
      Server5.handle_client nat echo_token t_start
        [binary_at t_late [x00; x59; x80; xca];
         mkIteration false (Received (Text "hi")) t_late None] fresh =
        (w1, Ret AWAITING_FRAME)) /\
  (exists w1 : world unit,
      Server4.handle_client
        [binary_at t_late [x00; x59; x80; xca];
         mkIteration false (Received (Text "hi")) t_late None] fresh4 =
        (w1, Ret AWAITING_FRAME)).
Proof.
  split; [reflexivity | ]. split; [reflexivity | ].
  exact (X9_messages_never_end_session nat echo_token t_start
           [binary_at t_late [x00; x59; x80; xca];
            mkIteration false (Received (Text "hi")) t_late None]
           fresh fresh4 eq_refl eq_refl).
Defined.

(** X10. How a session ends. After a run of message turns whose answers
    were sent, a turn in which the flag is up, or [recv] returns [None], or
    [recv] raises [ConnectionClosedError] closes the session quietly: no
    exception leaves the handler, nothing more is sent, and the turns after
    it are never looked at.  Any other exception raised by [recv] (a
    [ConnectionClosedOK], for one) is not caught and leaves the handler. *)
Theorem X10_session_end
  (card : Type) (token : card -> bytes -> card * ffi_return) (start_time : float)
  (turns1 : list iteration) (turn : iteration) (rest : list iteration)
  (w : world card) :
  forallb message_turn turns1 = true ->
  forallb sends_return turns1 = true ->
  (quiet_close turn = true ->
   Server5.handle_client card token start_time (turns1 ++ turn :: rest) w =
     (fst (Server5.handle_client card token start_time turns1 w), Ret CLOSED)) /\
  (forall e,
      break_loop turn = false ->
      recv turn = RecvRaised e ->
      e <> ConnectionClosedError ->
      Server5.handle_client card token start_time (turns1 ++ turn :: rest) w =
        (fst (Server5.handle_client card token start_time turns1 w), Raise e)).
Proof.
  intros Hall Hsend.
  destruct (receive_loop_app card token start_time turns1 Hall Hsend w) as (w1 & H1 & H2).
  unfold Server5.handle_client. rewrite H1, H2. cbn [fst Server5.receive_loop].
  split.
  - unfold quiet_close. intros Hq.
    destruct (break_loop turn); [reflexivity | ]. cbn [orb] in Hq.
    destruct (recv turn) as [m| |[]]; try discriminate Hq; reflexivity.
  - intros e Hb Hr He. rewrite Hb, Hr. unfold raise.
    destruct e; try reflexivity. now elim He.
Qed.

Lemma X10_witness :
  forallb message_turn [binary_at t_late [x00; x5b]] = true /\
  forallb sends_return [binary_at t_late [x00; x5b]] = true /\
  quiet_close (mkIteration false (RecvRaised ConnectionClosedError) t_late None) = true /\
  Server5.handle_client nat echo_token t_start
    ([binary_at t_late [x00; x5b]]
       ++ mkIteration false (RecvRaised ConnectionClosedError) t_late None
       :: [binary_at t_late [x00; x5b]]) fresh =
    (mkWorld 0%nat [Sent status_frame], Ret CLOSED).
Proof.
  split; [reflexivity | ]. split; [reflexivity | ]. split; [reflexivity | ].
  exact (proj1 (X10_session_end nat echo_token t_start
                  [binary_at t_late [x00; x5b]]
                  (mkIteration false (RecvRaised ConnectionClosedError) t_late None)
                  [binary_at t_late [x00; x5b]] fresh eq_refl eq_refl) eq_refl).
Defined.

(** A property of frames kept by every message is kept by every session. *)
Lemma receive_loop_Forall
  (card : Type) (token : card -> bytes -> card * ffi_return) (start_time : float)
  (P : bytes -> Prop) :
  (forall now sent message (w : world card),
      exists w' new r,
        Server5.handle_message card token start_time now sent message w = (w', r) /\
        trace w' = trace w ++ new /\
        Forall P (frames_sent new)) ->
  forall turns (w : world card),
  exists new,
    trace (fst (Server5.receive_loop card token start_time turns w)) = trace w ++ new /\
    Forall P (frames_sent new).
Proof.
  intros Hstep. induction turns as [|turn rest IH]; intros w.
  - exists []. cbn. rewrite app_nil_r. split; [reflexivity | constructor].
  - cbn [Server5.receive_loop].
    destruct (break_loop turn).
    { exists []. cbn. rewrite app_nil_r. split; [reflexivity | constructor]. }
    destruct (recv turn) as [[data|s]| |e].
    + destruct (Hstep (time_time turn) (send_raises turn) data w)
        as (w' & new1 & r & Hm & Ht & Hs).
      unfold bind. rewrite Hm. destruct r as [[]|e].
      * destruct (IH w') as (new2 & Ht2 & Hs2).
        exists (new1 ++ new2). rewrite Ht2, Ht, app_assoc.
        split; [reflexivity | ].
        rewrite frames_sent_app. apply Forall_app. now split.
      * exists new1. cbn [fst]. now split.
    + apply IH.
    + exists []. cbn. rewrite app_nil_r. split; [reflexivity | constructor].
    + exists []. cbn. rewrite app_nil_r. split; [reflexivity | constructor].
Qed.

Lemma handle_message_sizes
  (card : Type) (token : card -> bytes -> card * ffi_return) (start_time now : float)
  (sent : option exn) (message : bytes) (w : world card) :
  exists w' new r,
    Server5.handle_message card token start_time now sent message w = (w', r) /\
    trace w' = trace w ++ new /\
    Forall (fun frame => 4 <= len frame <= 10004) (frames_sent new).
Proof.
  assert (Hfix : forall f : bytes,
             4 <= len f <= 10004 ->
             Forall (fun frame => 4 <= len frame <= 10004) (frames_sent [Sent f])).
  { intros f Hf. cbn [frames_sent]. constructor; [exact Hf | constructor]. }
  destruct (tag_cases message) as [H|[H|[H|[H|H]]]].
  - exists (after_send w status_frame), [Sent status_frame]. eexists.
    split; [now apply status_branch | ]. split; [reflexivity | ].
    apply Hfix. cbn. lia.
  - exists (after_send w atr_frame), [Sent atr_frame]. eexists.
    split; [now apply atr_branch | ]. split; [reflexivity | ].
    apply Hfix. cbn. lia.
  - destruct (PrimFloat.leb (PrimFloat.sub now start_time) 5) eqn:Hw.
    + exists (after_send w placeholder_frame), [Sent placeholder_frame]. eexists.
      split; [now apply warmup_branch | ]. split; [reflexivity | ].
      apply Hfix. cbn. lia.
    + rewrite (apdu_branch card token start_time now sent message w H Hw).
      pose proof (handle_apdu_trace card token (slice_from message 2) w) as Htr.
      destruct (Server5.handle_apdu card token (slice_from message 2) w)
        as [w' [resp|e]] eqn:E; cbn [fst] in Htr.
      * apply handle_apdu_len in E. pose proof (len_nonneg resp) as Hr.
        eexists (after_send w' _), [SendApdu (slice_from message 2); Sent _], _.
        split; [reflexivity | ]. unfold after_send. cbn [trace].
        rewrite Htr, <- app_assoc. split; [reflexivity | ].
        cbn [frames_sent]. constructor; [ | constructor].
        unfold len in *. cbn [app List.length]. lia.
      * eexists (after_send w' _), [SendApdu (slice_from message 2); Sent _], _.
        split; [reflexivity | ]. unfold after_send. cbn [trace].
        rewrite Htr, <- app_assoc. split; [reflexivity | ].
        cbn [frames_sent]. constructor; [cbn; lia | constructor].
  - exists w, [], (Ret tt). split; [now apply silent_branch | ].
    rewrite app_nil_r. split; [reflexivity | constructor].
  - exists (after_send w default_response), [Sent default_response]. eexists.
    split; [now apply default_branch | ]. split; [reflexivity | ].
    apply Hfix. cbn. lia.
Qed.

(** X11. Every frame a session of server-5.py sends has between 4 and 10004
    bytes: the header and at most the 10000 bytes of the response buffer. *)
Theorem X11_frame_sizes
  (card : Type) (token : card -> bytes -> card * ffi_return) (start_time : float)
  (turns : list iteration) (w : world card) :
  exists new : list event,
    trace (fst (Server5.handle_client card token start_time turns w)) =
      trace w ++ new /\
    Forall (fun frame => 4 <= len frame <= 10004) (frames_sent new).
Proof.
  rewrite handle_client_world.
  apply receive_loop_Forall. apply handle_message_sizes.
Qed.

Lemma sends_return_but_last_tail (turn : iteration) (rest : list iteration) :
  sends_return_but_last (turn :: rest) = true ->
  sends_return_but_last rest = true /\ (rest = [] \/ sends_return turn = true).
Proof.
  destruct rest as [|next rest]; [now split; [ | left] | ].
  change (sends_return_but_last (turn :: next :: rest))
    with (sends_return turn && sends_return_but_last (next :: rest)).
  intros H. apply andb_true_iff in H. destruct H as [H1 H2].
  split; [exact H2 | now right].
Qed.

(** The frames of a session are counted by its answered turns. *)
Lemma receive_loop_count
  (card : Type) (token : card -> bytes -> card * ffi_return) (start_time : float)
  (turns : list iteration) :
  forall w : world card,
  exists new,
    trace (fst (Server5.receive_loop card token start_time turns w)) = trace w ++ new /\
    (List.length (frames_sent new) <= List.length (filter answered_turn turns))%nat /\
    (forallb message_turn turns = true ->
     sends_return_but_last turns = true ->
     List.length (frames_sent new) = List.length (filter answered_turn turns)).
Proof.
  induction turns as [|turn rest IH]; intros w.
  - exists []. cbn. rewrite app_nil_r. repeat split; auto.
  - destruct turn as [brk r now sent].
    cbn [Server5.receive_loop forallb filter break_loop recv time_time send_raises].
    destruct brk.
    { exists []. cbn [fst frames_sent List.length]. rewrite app_nil_r.
      split; [reflexivity | ]. split; [lia | ]. cbn. discriminate. }
    destruct r as [[data|s]| |e].
    + change (answered_turn (mkIteration false (Received (Binary data)) now sent))
        with (negb (is_silent (tag_recvd_of data))).
      change (message_turn (mkIteration false (Received (Binary data)) now sent)) with true.
      destruct (handle_message_returns card token start_time now sent data w)
        as (w' & new1 & Hm & Ht & _ & _ & Hn).
      unfold bind. rewrite Hm.
      destruct (IH w') as (new2 & Ht2 & Hle & Heq).
      destruct (is_silent (tag_recvd_of data)); cbn [negb andb].
      * exists (new1 ++ new2). rewrite Ht2, Ht, app_assoc.
        split; [reflexivity | ].
        rewrite frames_sent_app, length_app, Hn. cbn [Nat.add].
        split; [exact Hle | ]. intros Hall Hsend.
        apply sends_return_but_last_tail in Hsend. now apply Heq.
      * destruct sent as [e|]; cbn [send_result].
        -- exists new1. cbn [fst]. split; [exact Ht | ].
           rewrite Hn. cbn [List.length]. split; [lia | ].
           intros Hall Hsend. apply sends_return_but_last_tail in Hsend.
           destruct Hsend as [_ [-> | Hs]]; [reflexivity | discriminate Hs].
        -- exists (new1 ++ new2). rewrite Ht2, Ht, app_assoc.
           split; [reflexivity | ].
           rewrite frames_sent_app, length_app, Hn. cbn [List.length Nat.add].
           split; [lia | ]. intros Hall Hsend.
           apply sends_return_but_last_tail in Hsend. now rewrite (Heq Hall).
    + change (answered_turn (mkIteration false (Received (Text s)) now sent)) with false.
      change (message_turn (mkIteration false (Received (Text s)) now sent)) with true.
      cbn [andb].
      destruct (IH w) as (new2 & Ht2 & Hle & Heq).
      exists new2. split; [exact Ht2 | ]. split; [exact Hle | ].
      intros Hall Hsend. apply sends_return_but_last_tail in Hsend. now apply Heq.
    + exists []. cbn [fst frames_sent List.length ret]. rewrite app_nil_r.
      split; [reflexivity | ]. split; [lia | discriminate].
    + exists []. cbn [fst frames_sent List.length raise]. rewrite app_nil_r.
      split; [reflexivity | ]. split; [lia | discriminate].
Qed.

(** X12. One answer per message, none unasked: a session never hands more
    frames to [send] than it has received binary messages with byte 1
    outside 83, 81, 85; and when every turn brings a message and every
    [send] but the last returns, it hands over exactly one frame for each of
    those. *)
Theorem X12_frames_counted
  (card : Type) (token : card -> bytes -> card * ffi_return) (start_time : float)
  (turns : list iteration) (w : world card) :
  exists new : list event,
    trace (fst (Server5.handle_client card token start_time turns w)) =
      trace w ++ new /\
    (List.length (frames_sent new) <= List.length (filter answered_turn turns))%nat /\
    (forallb message_turn turns = true ->
     sends_return_but_last turns = true ->
     List.length (frames_sent new) = List.length (filter answered_turn turns)).
Proof.
  rewrite handle_client_world. apply receive_loop_count.
Qed.

Lemma X12_witness :
  forallb message_turn
    [binary_at t_late [x00; x5b]; binary_at t_late [x00; x53];
     binary_turn t_late (Some ConnectionClosedError) []] = true /\
  sends_return_but_last
    [binary_at t_late [x00; x5b]; binary_at t_late [x00; x53];
     binary_turn t_late (Some ConnectionClosedError) []] = true /\
  exists new : list event,
    trace (fst (Server5.handle_client nat echo_token t_start
                  [binary_at t_late [x00; x5b]; binary_at t_late [x00; x53];
                   binary_turn t_late (Some ConnectionClosedError) []] fresh)) =
      [] ++ new /\
    List.length (frames_sent new) = 2%nat.
Proof.
  split; [reflexivity | ]. split; [reflexivity | ].
  destruct (X12_frames_counted nat echo_token t_start
              [binary_at t_late [x00; x5b]; binary_at t_late [x00; x53];
               binary_turn t_late (Some ConnectionClosedError) []] fresh)
    as (new & Ht & _ & Heq).
  exists new. split; [exact Ht | exact (Heq eq_refl eq_refl)].
Defined.

(** ** server-4.py: what it can send *)

Lemma handle_message4_returns (sent : option exn) (message : bytes) (w : world unit) :
  exists new r,
    Server4.handle_message sent message w =
      (mkWorld (softoken w) (trace w ++ new), r) /\
    Forall (fun frame => In frame server4_frames) (frames_sent new).
Proof.
  assert (Hone : forall f, In f server4_frames ->
                           Forall (fun frame => In frame server4_frames)
                                  (frames_sent [Sent f])).
  { intros f Hf. cbn [frames_sent]. constructor; [exact Hf | constructor]. }
  unfold server4_frames in *.
  destruct (tag_cases message) as [H|[H|[H|[H|H]]]].
  - exists [Sent status_frame]. eexists. split; [now apply status_branch4 | ].
    apply Hone. cbn; auto.
  - exists [Sent atr_frame]. eexists. split; [now apply atr_branch4 | ].
    apply Hone. cbn; auto.
  - exists [Sent placeholder_frame]. eexists. split; [now apply apdu_branch4 | ].
    apply Hone. cbn; auto.
  - exists [], (Ret tt). rewrite world_eta. split; [now apply silent_branch4 | constructor].
  - exists [Sent default_response]. eexists. split; [now apply default_branch4 | ].
    apply Hone. cbn; auto.
Qed.

Lemma receive_loop4_frames (turns : list iteration) :
  forall w : world unit,
  exists new,
    trace (fst (Server4.receive_loop turns w)) = trace w ++ new /\
    Forall (fun frame => In frame server4_frames) (frames_sent new).
Proof.
  induction turns as [|turn rest IH]; intros w.
  - exists []. cbn. rewrite app_nil_r. split; [reflexivity | constructor].
  - cbn [Server4.receive_loop].
    destruct (break_loop turn).
    { exists []. cbn. rewrite app_nil_r. split; [reflexivity | constructor]. }
    destruct (recv turn) as [[data|s]| |e].
    + destruct (handle_message4_returns (send_raises turn) data w) as (new1 & r & Hm & Hs).
      unfold bind. rewrite Hm. destruct r as [[]|e].
      * destruct (IH (mkWorld (softoken w) (trace w ++ new1))) as (new2 & Ht2 & Hs2).
        exists (new1 ++ new2). rewrite Ht2. cbn [trace]. rewrite app_assoc.
        split; [reflexivity | ].
        rewrite frames_sent_app. apply Forall_app. now split.
      * exists new1. cbn [fst trace]. now split.
    + apply IH.
    + exists []. cbn. rewrite app_nil_r. split; [reflexivity | constructor].
    + exists []. cbn. rewrite app_nil_r. split; [reflexivity | constructor].
Qed.

(** X13. server-4.py never sends anything but four fixed frames: whatever a
    session receives, each frame it sends is the status frame, the ATR
    frame, the placeholder answer 00 5A 00 02 6D 82 or the default response
    00 02 6D 82, so no byte of any message beyond byte 1 reaches the
    output. *)
Theorem X13_server4_fixed_frames (turns : list iteration) (w : world unit) :
  exists new : list event,
    trace (fst (Server4.handle_client turns w)) = trace w ++ new /\
    Forall (fun frame =>
              In frame
                 [[x00; x5b; x00; x04; x55; x55; x55; x55];
                  [x00; x58; x00; x0b;
                   x3f; x95; x13; x81; x01; x80; x73; xff; x01; x00; x0b];
                  [x00; x5a; x00; x02; x6d; x82];
                  [x00; x02; x6d; x82]])
           (frames_sent new).
Proof.
  destruct (receive_loop4_frames turns w) as (new & Ht & Hs).
  exists new. split; [ | exact Hs].
  unfold Server4.handle_client.
  now destruct (Server4.receive_loop turns w) as [w' [s|[]]].
Qed.

(** * Start-up and shut-down *)

Section LifecycleFacts.
Variable handle : Type.
Variable os : Lifecycle.host handle.

Lemma load_library_cases (s : Lifecycle.state handle) :
  Lifecycle.load_library handle os s =
    match Lifecycle.get_library_path handle os with
    | Lifecycle.Thrown e => (s, Lifecycle.Thrown e)
    | Lifecycle.Done lib_path =>
        if Lifecycle.os_path_exists os lib_path then
          (Lifecycle.mkState (Lifecycle.vars s)
             (Lifecycle.log s ++ [Lifecycle.Act_CDLL lib_path]),
           match Lifecycle.ctypes_CDLL os lib_path with
           | Lifecycle.Loaded h => Lifecycle.Done h
           | Lifecycle.LoadFails => Lifecycle.Thrown Lifecycle.OSError_ctypes
           | Lifecycle.SymbolMissing => Lifecycle.Thrown Lifecycle.AttributeError_symbol
           end)
        else
          (s, Lifecycle.Thrown
                (Lifecycle.FileNotFoundError_lib lib_path (Lifecycle.platform_system os)))
    end.
Proof.
  unfold Lifecycle.load_library, Lifecycle.bind, Lifecycle.lift.
  destruct (Lifecycle.get_library_path handle os) as [lib_path|e]; [ | reflexivity].
  destruct (Lifecycle.os_path_exists os lib_path); cbn [negb]; [ | reflexivity].
  unfold Lifecycle.act.
  now destruct (Lifecycle.ctypes_CDLL os lib_path).
Qed.

Lemma get_library_path_unsupported :
  ~ In (Lifecycle.platform_system os) ["Windows"; "Darwin"; "Linux"]%string ->
  Lifecycle.get_library_path handle os =
    Lifecycle.Thrown (Lifecycle.OSError_unsupported (Lifecycle.platform_system os)).
Proof.
  intros Hn. unfold Lifecycle.get_library_path. cbn [In] in Hn.
  repeat match goal with
         | |- context [String.eqb ?a ?b] =>
             destruct (String.eqb_spec a b) as [E|_];
             [exfalso; apply Hn; rewrite E; auto 10 | ]
         end.
  reflexivity.
Qed.

Lemma unload_library_spec (lib : handle) (s : Lifecycle.state handle) :
  exists acts : list (Lifecycle.action handle),
    Lifecycle.unload_library handle os lib s =
      (Lifecycle.mkState
         (Lifecycle.mkGlobals (Lifecycle.break_loop (Lifecycle.vars s)) None
            (Lifecycle.is_initialized (Lifecycle.vars s)))
         (Lifecycle.log s ++ acts),
       Lifecycle.Done tt) /\
    (acts = [] \/ acts = [Lifecycle.Act_FreeLibrary lib] \/
     acts = [Lifecycle.Act_dlclose lib]) /\
    (~ In (Lifecycle.platform_system os) ["Windows"; "Darwin"; "Linux"]%string ->
     acts = []).
Proof.
  unfold Lifecycle.unload_library, Lifecycle.try_finally, Lifecycle.try_except,
    Lifecycle.bind, Lifecycle.act, Lifecycle.raise, Lifecycle.ret,
    Lifecycle.set_softoken.
  cbn [existsb].
  destruct (String.eqb_spec (Lifecycle.platform_system os) "Windows") as [EW|NW].
  { exists [Lifecycle.Act_FreeLibrary lib].
    split; [ | split; [auto | intros Hn; exfalso; apply Hn; rewrite EW; cbn; auto]].
    now destruct (Z.eqb (Lifecycle.FreeLibrary os lib) 0). }
  destruct (String.eqb_spec (Lifecycle.platform_system os) "Darwin") as [ED|ND];
    [ | destruct (String.eqb_spec (Lifecycle.platform_system os) "Linux") as [EL|NL]];
    cbn [orb].
  3: { exists []. rewrite app_nil_r. split; [reflexivity | ]. split; auto. }
  all: destruct (Lifecycle.libc_loads os); cbn [negb];
    [ | exists []; rewrite app_nil_r; split; [reflexivity | split; auto] ];
    (destruct (Lifecycle.libc_dlclose os) as [dlclose|];
     [ | exists []; rewrite app_nil_r; split; [reflexivity | split; auto] ]);
    exists [Lifecycle.Act_dlclose lib];
    (split; [now destruct (Z.eqb (dlclose lib) 0) | ]);
    (split; [auto | intros Hn; exfalso; apply Hn; cbn; auto]).
Qed.

Lemma load_library_vars (s s1 : Lifecycle.state handle) (r : Lifecycle.outcome handle) :
  Lifecycle.load_library handle os s = (s1, r) ->
  Lifecycle.vars s1 = Lifecycle.vars s /\
  match r with
  | Lifecycle.Done _ => True
  | Lifecycle.Thrown e => Lifecycle.is_Exception e = true
  end.
Proof.
  rewrite load_library_cases.
  destruct (Lifecycle.get_library_path handle os) as [lib_path|e] eqn:Ep.
  - destruct (Lifecycle.os_path_exists os lib_path).
    + intros [= <- <-]. split; [reflexivity | ].
      now destruct (Lifecycle.ctypes_CDLL os lib_path).
    + intros [= <- <-]. now split.
  - intros [= <- <-]. split; [reflexivity | ].
    unfold Lifecycle.get_library_path in Ep.
    repeat match type of Ep with
           | context [String.eqb ?a ?b] => destruct (String.eqb a b)
           end; try discriminate Ep.
    now injection Ep as <-.
Qed.

(** The first [try] of [main] never lets an exception through. *)
Lemma startup_cases (s : Lifecycle.state handle) :
  Lifecycle.startup handle os s =
    if Lifecycle.is_initialized (Lifecycle.vars s) then (s, Lifecycle.Done true)
    else
      match Lifecycle.load_library handle os s with
      | (s1, Lifecycle.Thrown _) => (s1, Lifecycle.Done false)
      | (s1, Lifecycle.Done h) =>
          (Lifecycle.mkState
             (Lifecycle.mkGlobals (Lifecycle.break_loop (Lifecycle.vars s)) (Some h)
                (Z.eqb (Lifecycle.init_softToken os h) 0))
             (Lifecycle.log s1 ++ [Lifecycle.Act_init h]),
           Lifecycle.Done (Z.eqb (Lifecycle.init_softToken os h) 0))
      end.
Proof.
  unfold Lifecycle.startup, Lifecycle.try_except, Lifecycle.bind at 1, Lifecycle.read.
  destruct (Lifecycle.is_initialized (Lifecycle.vars s)) eqn:Ei; cbn [negb].
  - reflexivity.
  - unfold Lifecycle.bind at 1. unfold Lifecycle.bind at 1.
    destruct (Lifecycle.load_library handle os s) as [s1 [h|e]] eqn:El;
      destruct (load_library_vars s s1 _ El) as [Hv He].
    + unfold Lifecycle.bind, Lifecycle.set_softoken, Lifecycle.act,
        Lifecycle.set_is_initialized, Lifecycle.raise, Lifecycle.ret.
      cbn [Lifecycle.vars Lifecycle.log Lifecycle.break_loop Lifecycle.softoken
           Lifecycle.is_initialized].
      rewrite Hv, Ei.
      now destruct (Z.eqb (Lifecycle.init_softToken os h) 0).
    + now rewrite He.
Qed.

Lemma main_not_started (s s1 : Lifecycle.state handle) :
  Lifecycle.startup handle os s = (s1, Lifecycle.Done false) ->
  Lifecycle.main handle os s = (s1, Lifecycle.Done tt).
Proof.
  intros H. unfold Lifecycle.main, Lifecycle.bind at 1. now rewrite H.
Qed.

Lemma main_serve_fails (s s1 : Lifecycle.state handle) :
  Lifecycle.startup handle os s = (s1, Lifecycle.Done true) ->
  Lifecycle.serve_fails os = true ->
  Lifecycle.main handle os s = (s1, Lifecycle.Thrown Lifecycle.OSError_serve).
Proof.
  intros H Hs. unfold Lifecycle.main, Lifecycle.bind at 1. rewrite H. cbn [negb].
  unfold Lifecycle.bind at 1, Lifecycle.serve. now rewrite Hs.
Qed.

Lemma main_served (s s1 : Lifecycle.state handle) :
  Lifecycle.startup handle os s = (s1, Lifecycle.Done true) ->
  Lifecycle.serve_fails os = false ->
  exists acts : list (Lifecycle.action handle),
    Lifecycle.main handle os s =
      (Lifecycle.mkState
         (Lifecycle.mkGlobals
            (Lifecycle.wait_cancelled os 0 || Lifecycle.break_loop (Lifecycle.vars s1))
            None
            (Lifecycle.is_initialized (Lifecycle.vars s1)))
         (Lifecycle.log s1
            ++ [Lifecycle.Act_serve; Lifecycle.Act_wait_closed]
            ++ acts
            ++ [Lifecycle.Act_close; Lifecycle.Act_wait_closed]),
       if Lifecycle.wait_cancelled os 1 then Lifecycle.Thrown Lifecycle.CancelledError
       else Lifecycle.Done tt) /\
    match Lifecycle.softoken (Lifecycle.vars s1) with
    | None => acts = []
    | Some h =>
        acts = [] \/ acts = [Lifecycle.Act_FreeLibrary h] \/
        acts = [Lifecycle.Act_dlclose h]
    end.
Proof.
  intros H Hs. unfold Lifecycle.main, Lifecycle.bind at 1. rewrite H. cbn [negb].
  unfold Lifecycle.bind at 1, Lifecycle.serve. rewrite Hs.
  unfold Lifecycle.act at 1.
  unfold Lifecycle.try_finally.
  set (s2 := Lifecycle.mkState (Lifecycle.vars s1)
               (Lifecycle.log s1 ++ [Lifecycle.Act_serve])).
  assert (Hwait : exists b,
             Lifecycle.try_except
               (fun e => match e with Lifecycle.CancelledError => true | _ => false end)
               (Lifecycle.wait_closed handle os 0)
               (fun _ => Lifecycle.set_break_loop true) s2 =
               (Lifecycle.mkState
                  (Lifecycle.mkGlobals
                     (Lifecycle.wait_cancelled os 0
                      || Lifecycle.break_loop (Lifecycle.vars s1))
                     (Lifecycle.softoken (Lifecycle.vars s1))
                     (Lifecycle.is_initialized (Lifecycle.vars s1)))
                  (Lifecycle.log s1 ++ [Lifecycle.Act_serve; Lifecycle.Act_wait_closed]),
                Lifecycle.Done b)).
  { exists tt.
    unfold Lifecycle.try_except, Lifecycle.wait_closed, Lifecycle.bind, Lifecycle.act,
      Lifecycle.raise, Lifecycle.ret, Lifecycle.set_break_loop, s2.
    cbn [Lifecycle.vars Lifecycle.log]. rewrite <- app_assoc. cbn [app].
    destruct (Lifecycle.wait_cancelled os 0); cbn [orb]; [reflexivity | ].
    now destruct (Lifecycle.vars s1). }
  destruct Hwait as ([] & ->).
  unfold Lifecycle.bind at 1, Lifecycle.read.
  cbn [Lifecycle.vars Lifecycle.softoken].
  destruct (Lifecycle.softoken (Lifecycle.vars s1)) as [h|].
  - unfold Lifecycle.bind at 1, Lifecycle.try_except.
    match goal with
    | |- context [Lifecycle.unload_library handle os h ?st] =>
        destruct (unload_library_spec h st) as (acts & -> & Hacts & _)
    end.
    exists acts. split; [ | exact Hacts].
    cbv [Lifecycle.bind Lifecycle.act Lifecycle.wait_closed Lifecycle.raise
         Lifecycle.ret Lifecycle.vars Lifecycle.log Lifecycle.break_loop
         Lifecycle.is_initialized].
    destruct (Lifecycle.wait_cancelled os 1); rewrite <- !app_assoc; reflexivity.
  - exists []. split; [ | reflexivity].
    cbv [Lifecycle.bind Lifecycle.act Lifecycle.wait_closed Lifecycle.raise
         Lifecycle.ret Lifecycle.vars Lifecycle.log Lifecycle.break_loop
         Lifecycle.is_initialized].
    destruct (Lifecycle.wait_cancelled os 1); rewrite <- !app_assoc; reflexivity.
Qed.

(** The two ways the first [try] of [main] ends when nothing is
    initialised yet. *)
Lemma startup_shape (s : Lifecycle.state handle) :
  Lifecycle.is_initialized (Lifecycle.vars s) = false ->
  (exists lib_path h,
      Lifecycle.startup handle os s =
        (Lifecycle.mkState
           (Lifecycle.mkGlobals (Lifecycle.break_loop (Lifecycle.vars s)) (Some h) true)
           (Lifecycle.log s ++ [Lifecycle.Act_CDLL lib_path; Lifecycle.Act_init h]),
         Lifecycle.Done true) /\
      Lifecycle.os_path_exists os lib_path = true /\
      Lifecycle.ctypes_CDLL os lib_path = Lifecycle.Loaded h /\
      Lifecycle.init_softToken os h = 0) \/
  (exists s1 acts0,
      Lifecycle.startup handle os s = (s1, Lifecycle.Done false) /\
      Lifecycle.log s1 = Lifecycle.log s ++ acts0 /\
      ~ In Lifecycle.Act_serve acts0 /\
      ~ In Lifecycle.Act_close acts0 /\
      Lifecycle.is_initialized (Lifecycle.vars s1) = false /\
      Lifecycle.break_loop (Lifecycle.vars s1) = Lifecycle.break_loop (Lifecycle.vars s)).
Proof.
  intros Ei. rewrite startup_cases, Ei, load_library_cases.
  assert (Hno : forall acts0 : list (Lifecycle.action handle),
             (acts0 = [] \/ (exists p, acts0 = [Lifecycle.Act_CDLL p]) \/
              (exists p h, acts0 = [Lifecycle.Act_CDLL p; Lifecycle.Act_init h])) ->
             ~ In Lifecycle.Act_serve acts0 /\ ~ In Lifecycle.Act_close acts0).
  { intros acts0 [->|[(p & ->)|(p & h & ->)]]; cbn [In]; split; intuition discriminate. }
  destruct (Lifecycle.get_library_path handle os) as [lib_path|e].
  - destruct (Lifecycle.os_path_exists os lib_path) eqn:Ex.
    + destruct (Lifecycle.ctypes_CDLL os lib_path) as [h| |] eqn:Ec.
      * cbn [Lifecycle.log]. rewrite <- app_assoc. cbn [app].
        destruct (Z.eqb_spec (Lifecycle.init_softToken os h) 0) as [E0|N0].
        -- left. exists lib_path, h. now repeat split.
        -- right. eexists _, [Lifecycle.Act_CDLL lib_path; Lifecycle.Act_init h].
           split; [reflexivity | ]. split; [reflexivity | ].
           destruct (Hno [Lifecycle.Act_CDLL lib_path; Lifecycle.Act_init h]) as [H1 H2];
             [right; right; eauto | ].
           now repeat split.
      * right. eexists _, [Lifecycle.Act_CDLL lib_path].
        split; [reflexivity | ]. split; [reflexivity | ].
        destruct (Hno [Lifecycle.Act_CDLL lib_path]) as [H1 H2]; [right; left; eauto | ].
        now repeat split.
      * right. eexists _, [Lifecycle.Act_CDLL lib_path].
        split; [reflexivity | ]. split; [reflexivity | ].
        destruct (Hno [Lifecycle.Act_CDLL lib_path]) as [H1 H2]; [right; left; eauto | ].
        now repeat split.
    + right. exists s, []. rewrite app_nil_r.
      split; [reflexivity | ]. split; [reflexivity | ].
      destruct (Hno []) as [H1 H2]; [now left | ]. now repeat split.
  - right. exists s, []. rewrite app_nil_r.
    split; [reflexivity | ]. split; [reflexivity | ].
    destruct (Hno []) as [H1 H2]; [now left | ]. now repeat split.
Qed.
End LifecycleFacts.

(** X14. [load_library] touches the loader only for a file that exists.
    When it returns a handle, the platform has a library path, the file is
    there, and [ctypes.CDLL] was called once, on that path.  When the file
    is missing it raises [FileNotFoundError], and on a platform other than
    Windows, Darwin and Linux it raises [OSError]; in both cases nothing has
    been called. *)
Theorem X14_load_library
  (handle : Type) (os : Lifecycle.host handle) (s : Lifecycle.state handle) :
  (forall s1 h,
      Lifecycle.load_library handle os s = (s1, Lifecycle.Done h) ->
      exists lib_path,
        Lifecycle.get_library_path handle os = Lifecycle.Done lib_path /\
        Lifecycle.os_path_exists os lib_path = true /\
        Lifecycle.ctypes_CDLL os lib_path = Lifecycle.Loaded h /\
        s1 = Lifecycle.mkState (Lifecycle.vars s)
               (Lifecycle.log s ++ [Lifecycle.Act_CDLL lib_path])) /\
  (forall lib_path,
      Lifecycle.get_library_path handle os = Lifecycle.Done lib_path ->
      Lifecycle.os_path_exists os lib_path = false ->
      Lifecycle.load_library handle os s =
        (s, Lifecycle.Thrown
              (Lifecycle.FileNotFoundError_lib lib_path (Lifecycle.platform_system os)))) /\
  (~ In (Lifecycle.platform_system os) ["Windows"; "Darwin"; "Linux"]%string ->
   Lifecycle.load_library handle os s =
     (s, Lifecycle.Thrown
           (Lifecycle.OSError_unsupported (Lifecycle.platform_system os)))).
Proof.
  rewrite load_library_cases. split; [ | split].
  - intros s1 h.
    destruct (Lifecycle.get_library_path handle os) as [lib_path|e]; [ | discriminate].
    destruct (Lifecycle.os_path_exists os lib_path) eqn:Ex; [ | discriminate].
    destruct (Lifecycle.ctypes_CDLL os lib_path) as [h'| |] eqn:Ec; try discriminate.
    intros [= <- <-]. exists lib_path. now repeat split.
  - intros lib_path -> ->. reflexivity.
  - intros Hn. now rewrite (get_library_path_unsupported handle os Hn).
Qed.

Lemma X14_witness :
  ~ In (Lifecycle.platform_system freebsd_host) ["Windows"; "Darwin"; "Linux"]%string /\
  Lifecycle.load_library nat freebsd_host boot =
    (boot, Lifecycle.Thrown (Lifecycle.OSError_unsupported "FreeBSD")) /\
  exists lib_path,
    Lifecycle.get_library_path nat (linux_host 0) = Lifecycle.Done lib_path /\
    Lifecycle.os_path_exists (linux_host 0) lib_path = true /\
    Lifecycle.ctypes_CDLL (linux_host 0) lib_path = Lifecycle.Loaded 7%nat /\
    Lifecycle.mkState (Lifecycle.vars boot)
      (Lifecycle.log boot ++ [Lifecycle.Act_CDLL "/usr/lib/softoken/libsoftoken.so"]) =
    Lifecycle.mkState (Lifecycle.vars boot)
      (Lifecycle.log boot ++ [Lifecycle.Act_CDLL lib_path]).
Proof.
  assert (Hn : ~ In (Lifecycle.platform_system freebsd_host)
                    ["Windows"; "Darwin"; "Linux"]%string).
  { cbn. intros [H|[H|[H|[]]]]; discriminate H. }
  split; [exact Hn | ]. split.
  - exact (proj2 (proj2 (X14_load_library nat freebsd_host boot)) Hn).
  - exact (proj1 (X14_load_library nat (linux_host 0) boot) _ 7%nat eq_refl).
Defined.

(** X15. [unload_library] never raises and always leaves [softoken] at
    [None], whatever the platform and whatever the unloading call answers;
    the other globals are untouched; the operating system is asked at most
    once to unload, and not at all on a platform other than Windows, Darwin
    and Linux. *)
Theorem X15_unload_library
  (handle : Type) (os : Lifecycle.host handle) (lib : handle)
  (s : Lifecycle.state handle) :
  exists acts : list (Lifecycle.action handle),
    Lifecycle.unload_library handle os lib s =
      (Lifecycle.mkState
         (Lifecycle.mkGlobals (Lifecycle.break_loop (Lifecycle.vars s)) None
            (Lifecycle.is_initialized (Lifecycle.vars s)))
         (Lifecycle.log s ++ acts),
       Lifecycle.Done tt) /\
    (acts = [] \/ acts = [Lifecycle.Act_FreeLibrary lib] \/
     acts = [Lifecycle.Act_dlclose lib]) /\
    (~ In (Lifecycle.platform_system os) ["Windows"; "Darwin"; "Linux"]%string ->
     acts = []).
Proof.
  destruct (unload_library_spec handle os lib s) as (acts & Hrun & Hacts & Hnone).
  exists acts. split; [exact Hrun | ]. split; [exact Hacts | exact Hnone].
Qed.

(** X16. The server of server-5.py accepts connections only behind a
    library that loaded and initialised: started with nothing initialised,
    whenever [main] reaches [websockets.serve] it has first called
    [ctypes.CDLL] on an existing file, got a handle, called
    [init_softToken] on it and got 0; and [is_initialized] is then set. *)
Theorem X16_serve_only_after_init
  (handle : Type) (os : Lifecycle.host handle) (s : Lifecycle.state handle) :
  Lifecycle.is_initialized (Lifecycle.vars s) = false ->
  exists acts : list (Lifecycle.action handle),
    Lifecycle.log (fst (Lifecycle.main handle os s)) = Lifecycle.log s ++ acts /\
    (In Lifecycle.Act_serve acts ->
     exists lib_path h rest,
       acts = Lifecycle.Act_CDLL lib_path :: Lifecycle.Act_init h
                :: Lifecycle.Act_serve :: rest /\
       Lifecycle.os_path_exists os lib_path = true /\
       Lifecycle.ctypes_CDLL os lib_path = Lifecycle.Loaded h /\
       Lifecycle.init_softToken os h = 0 /\
       Lifecycle.is_initialized (Lifecycle.vars (fst (Lifecycle.main handle os s))) = true).
Proof.
  intros Ei.
  destruct (startup_shape handle os s Ei)
    as [(lib_path & h & Hst & Hex & Hld & Hin)|(s1 & acts0 & Hst & Hlog & Hns & _)].
  - destruct (Lifecycle.serve_fails os) eqn:Hs.
    + rewrite (main_serve_fails handle os s _ Hst Hs). cbn [fst Lifecycle.log].
      eexists. split; [reflexivity | ].
      cbn [In]. intros [H|[H|[]]]; discriminate H.
    + destruct (main_served handle os s _ Hst Hs) as (acts & -> & _).
      cbn [fst Lifecycle.log Lifecycle.vars Lifecycle.is_initialized].
      rewrite <- app_assoc. cbn [app].
      eexists. split; [reflexivity | ]. intros _.
      exists lib_path, h. eexists. now repeat split.
  - rewrite (main_not_started handle os s s1 Hst). cbn [fst].
    exists acts0. split; [exact Hlog | ]. intros H. now elim Hns.
Qed.

Lemma X16_witness :
  Lifecycle.is_initialized (Lifecycle.vars boot) = false /\
  Lifecycle.main nat (linux_host 0) boot =
    (Lifecycle.mkState (Lifecycle.mkGlobals true None true)
       [Lifecycle.Act_CDLL "/usr/lib/softoken/libsoftoken.so"; Lifecycle.Act_init 7%nat;
        Lifecycle.Act_serve; Lifecycle.Act_wait_closed; Lifecycle.Act_dlclose 7%nat;
        Lifecycle.Act_close; Lifecycle.Act_wait_closed],
     Lifecycle.Done tt) /\
  exists acts : list (Lifecycle.action nat),
    Lifecycle.log (fst (Lifecycle.main nat (linux_host 0) boot)) =
      Lifecycle.log boot ++ acts /\
    (In Lifecycle.Act_serve acts ->
     exists lib_path h rest,
       acts = Lifecycle.Act_CDLL lib_path :: Lifecycle.Act_init h
                :: Lifecycle.Act_serve :: rest /\
       Lifecycle.os_path_exists (linux_host 0) lib_path = true /\
       Lifecycle.ctypes_CDLL (linux_host 0) lib_path = Lifecycle.Loaded h /\
       Lifecycle.init_softToken (linux_host 0) h = 0 /\
       Lifecycle.is_initialized
         (Lifecycle.vars (fst (Lifecycle.main nat (linux_host 0) boot))) = true).
Proof.
  split; [reflexivity | ]. split; [reflexivity | ].
  exact (X16_serve_only_after_init nat (linux_host 0) boot eq_refl).
Defined.

(** X17. A failed start-up of server-5.py is silent and leaves no server:
    with nothing initialised, when [load_library] raises, [main] returns
    normally having done nothing more; when the library loads but
    [init_softToken] answers non-zero, [main] returns normally with
    [is_initialized] still false and the loaded library still held in
    [softoken], never unloaded.  In neither case is [websockets.serve]
    reached. *)
Theorem X17_failed_startup
  (handle : Type) (os : Lifecycle.host handle) (s : Lifecycle.state handle) :
  Lifecycle.is_initialized (Lifecycle.vars s) = false ->
  (forall s1 e,
      Lifecycle.load_library handle os s = (s1, Lifecycle.Thrown e) ->
      Lifecycle.main handle os s = (s1, Lifecycle.Done tt) /\
      (s1 = s \/ exists lib_path,
          s1 = Lifecycle.mkState (Lifecycle.vars s)
                 (Lifecycle.log s ++ [Lifecycle.Act_CDLL lib_path]))) /\
  (forall s1 h,
      Lifecycle.load_library handle os s = (s1, Lifecycle.Done h) ->
      Lifecycle.init_softToken os h <> 0 ->
      Lifecycle.main handle os s =
        (Lifecycle.mkState
           (Lifecycle.mkGlobals (Lifecycle.break_loop (Lifecycle.vars s)) (Some h) false)
           (Lifecycle.log s1 ++ [Lifecycle.Act_init h]),
         Lifecycle.Done tt)).
Proof.
  intros Ei. split.
  - intros s1 e Hl. split.
    + apply main_not_started. now rewrite startup_cases, Ei, Hl.
    + rewrite load_library_cases in Hl.
      destruct (Lifecycle.get_library_path handle os) as [lib_path|e'].
      * destruct (Lifecycle.os_path_exists os lib_path).
        -- right. exists lib_path. now injection Hl as <- _.
        -- left. now injection Hl as <- _.
      * left. now injection Hl as <- _.
  - intros s1 h Hl Hn. apply main_not_started.
    rewrite startup_cases, Ei, Hl.
    apply Z.eqb_neq in Hn. now rewrite Hn.
Qed.

Lemma X17_witness :
  Lifecycle.is_initialized (Lifecycle.vars boot) = false /\
  Lifecycle.init_softToken (linux_host 3) 7%nat <> 0 /\
  Lifecycle.main nat (linux_host 3) boot =
    (Lifecycle.mkState (Lifecycle.mkGlobals false (Some 7%nat) false)
       [Lifecycle.Act_CDLL "/usr/lib/softoken/libsoftoken.so"; Lifecycle.Act_init 7%nat],
     Lifecycle.Done tt) /\
  Lifecycle.main nat freebsd_host boot = (boot, Lifecycle.Done tt).
Proof.
  assert (Hn : Lifecycle.init_softToken (linux_host 3) 7%nat <> 0) by discriminate.
  split; [reflexivity | ]. split; [exact Hn | ]. split.
  - exact (proj2 (X17_failed_startup nat (linux_host 3) boot eq_refl)
             (Lifecycle.mkState (Lifecycle.vars boot)
                [Lifecycle.Act_CDLL "/usr/lib/softoken/libsoftoken.so"])
             7%nat eq_refl Hn).
  - exact (proj1 (proj1 (X17_failed_startup nat freebsd_host boot eq_refl)
                    boot (Lifecycle.OSError_unsupported "FreeBSD") eq_refl)).
Defined.

(** X18. A server of server-5.py that was started is always shut down in
    full: whenever [main] has reached [websockets.serve], by the time it
    ends (normally or cancelled) it has called [server.close()] once,
    [softoken] is [None], and [break_loop] is up exactly if it was up
    before or the first [wait_closed] was cancelled. *)
Theorem X18_served_then_closed
  (handle : Type) (os : Lifecycle.host handle) (s : Lifecycle.state handle) :
  exists acts : list (Lifecycle.action handle),
    Lifecycle.log (fst (Lifecycle.main handle os s)) = Lifecycle.log s ++ acts /\
    (In Lifecycle.Act_serve acts ->
     (exists before middle,
         acts = before ++ [Lifecycle.Act_serve; Lifecycle.Act_wait_closed] ++ middle
                  ++ [Lifecycle.Act_close; Lifecycle.Act_wait_closed] /\
         ~ In Lifecycle.Act_close before /\ ~ In Lifecycle.Act_close middle) /\
     Lifecycle.softoken (Lifecycle.vars (fst (Lifecycle.main handle os s))) = None /\
     Lifecycle.break_loop (Lifecycle.vars (fst (Lifecycle.main handle os s))) =
       Lifecycle.wait_cancelled os 0 || Lifecycle.break_loop (Lifecycle.vars s)).
Proof.
  assert (Hstart : exists s1 b acts0,
             Lifecycle.startup handle os s = (s1, Lifecycle.Done b) /\
             Lifecycle.log s1 = Lifecycle.log s ++ acts0 /\
             ~ In Lifecycle.Act_serve acts0 /\ ~ In Lifecycle.Act_close acts0 /\
             Lifecycle.break_loop (Lifecycle.vars s1) =
               Lifecycle.break_loop (Lifecycle.vars s)).
  { destruct (Lifecycle.is_initialized (Lifecycle.vars s)) eqn:Ei.
    - exists s, true, []. rewrite startup_cases, Ei, app_nil_r. now repeat split.
    - destruct (startup_shape handle os s Ei)
        as [(lib_path & h & Hst & _)|(s1 & acts0 & Hst & Hlog & Hns & Hnc & _ & Hb)].
      + eexists _, true, [Lifecycle.Act_CDLL lib_path; Lifecycle.Act_init h].
        split; [exact Hst | ]. cbn [Lifecycle.log Lifecycle.vars Lifecycle.break_loop In].
        repeat split; try reflexivity; intros [H|[H|[]]]; discriminate H.
      + exists s1, false, acts0. now repeat split. }
  destruct Hstart as (s1 & b & acts0 & Hst & Hlog & Hns & Hnc & Hb).
  destruct b.
  - destruct (Lifecycle.serve_fails os) eqn:Hs.
    + rewrite (main_serve_fails handle os s s1 Hst Hs). cbn [fst].
      exists acts0. split; [exact Hlog | ]. intros H. now elim Hns.
    + destruct (main_served handle os s s1 Hst Hs) as (acts & -> & Hacts).
      cbn [fst Lifecycle.log Lifecycle.vars Lifecycle.softoken Lifecycle.break_loop].
      rewrite Hlog, <- app_assoc, Hb.
      eexists. split; [reflexivity | ]. intros _.
      split; [ | now split].
      exists acts0, acts. split; [reflexivity | ]. split; [exact Hnc | ].
      destruct (Lifecycle.softoken (Lifecycle.vars s1)) as [h|].
      * destruct Hacts as [-> | [-> | ->]]; cbn [In]; intuition discriminate.
      * subst acts. intros [].
  - rewrite (main_not_started handle os s s1 Hst). cbn [fst].
    exists acts0. split; [exact Hlog | ]. intros H. now elim Hns.
Qed.

(** X19. [main] of server-4.py starts the server without any precondition:
    unless [websockets.serve] itself raises, it serves, waits, closes the
    server once and waits again, leaves [softoken] and [is_initialized] as
    they were, and raises [break_loop] exactly if the first wait was
    cancelled.  [main] of server-5.py does exactly the same when it finds
    [is_initialized] set and [softoken] empty, as a first run leaves them:
    a second run serves without loading the library again. *)
Theorem X19_server4_main
  (handle : Type) (os : Lifecycle.host handle) (s : Lifecycle.state handle) :
  Lifecycle.serve_fails os = false ->
  Lifecycle.main_server4 handle os s =
    (Lifecycle.mkState
       (Lifecycle.mkGlobals
          (Lifecycle.wait_cancelled os 0 || Lifecycle.break_loop (Lifecycle.vars s))
          (Lifecycle.softoken (Lifecycle.vars s))
          (Lifecycle.is_initialized (Lifecycle.vars s)))
       (Lifecycle.log s ++ [Lifecycle.Act_serve; Lifecycle.Act_wait_closed;
                            Lifecycle.Act_close; Lifecycle.Act_wait_closed]),
     if Lifecycle.wait_cancelled os 1 then Lifecycle.Thrown Lifecycle.CancelledError
     else Lifecycle.Done tt) /\
  (Lifecycle.is_initialized (Lifecycle.vars s) = true ->
   Lifecycle.softoken (Lifecycle.vars s) = None ->
   Lifecycle.main handle os s = Lifecycle.main_server4 handle os s).
Proof.
  intros Hs.
  assert (H4 : Lifecycle.main_server4 handle os s =
    (Lifecycle.mkState
       (Lifecycle.mkGlobals
          (Lifecycle.wait_cancelled os 0 || Lifecycle.break_loop (Lifecycle.vars s))
          (Lifecycle.softoken (Lifecycle.vars s))
          (Lifecycle.is_initialized (Lifecycle.vars s)))
       (Lifecycle.log s ++ [Lifecycle.Act_serve; Lifecycle.Act_wait_closed;
                            Lifecycle.Act_close; Lifecycle.Act_wait_closed]),
     if Lifecycle.wait_cancelled os 1 then Lifecycle.Thrown Lifecycle.CancelledError
     else Lifecycle.Done tt)).
  { destruct s as [[brk tok ini] lg].
    cbv [Lifecycle.main_server4 Lifecycle.bind Lifecycle.serve Lifecycle.try_finally
         Lifecycle.try_except Lifecycle.wait_closed Lifecycle.act Lifecycle.raise
         Lifecycle.ret Lifecycle.set_break_loop Lifecycle.vars Lifecycle.log
         Lifecycle.break_loop Lifecycle.softoken Lifecycle.is_initialized].
    rewrite Hs.
    destruct (Lifecycle.wait_cancelled os 0), (Lifecycle.wait_cancelled os 1);
      cbn [orb]; rewrite <- !app_assoc; reflexivity. }
  split; [exact H4 | ].
  intros Hi Hn. rewrite H4.
  assert (Hst : Lifecycle.startup handle os s = (s, Lifecycle.Done true)).
  { now rewrite startup_cases, Hi. }
  destruct (main_served handle os s s Hst Hs) as (acts & -> & Hacts).
  rewrite Hn in Hacts. subst acts. now rewrite Hn.
Qed.

Lemma X19_witness :
  Lifecycle.serve_fails freebsd_host = false /\
  Lifecycle.main_server4 nat freebsd_host boot =
    (Lifecycle.mkState (Lifecycle.mkGlobals false None false)
       [Lifecycle.Act_serve; Lifecycle.Act_wait_closed;
        Lifecycle.Act_close; Lifecycle.Act_wait_closed],
     Lifecycle.Done tt) /\
  Lifecycle.main nat (linux_host 0)
    (Lifecycle.mkState (Lifecycle.mkGlobals true None true) []) =
    Lifecycle.main_server4 nat (linux_host 0)
      (Lifecycle.mkState (Lifecycle.mkGlobals true None true) []).
Proof.
  split; [reflexivity | ]. split.
  - exact (proj1 (X19_server4_main nat freebsd_host boot eq_refl)).
  - exact (proj2 (X19_server4_main nat (linux_host 0)
                    (Lifecycle.mkState (Lifecycle.mkGlobals true None true) [])
                    eq_refl) eq_refl eq_refl).
Defined.

(** * The echo handlers of server-2.py and server-3.py *)

Lemma complete3_inv (t : Echo.turn) :
  Echo.complete3 t = true ->
  exists m m', Echo.break_loop t = false /\
               Echo.first t = Received m /\
               Echo.echo_raises t = None /\
               Echo.second t = Some (Received m') /\
               Echo.large_raises t = None.
Proof.
  unfold Echo.complete3. destruct t as [brk f e1 e2 sec e3]. cbn.
  destruct brk; [discriminate | ].
  destruct f as [m| |e]; try discriminate.
  destruct e1 as [e|]; try discriminate.
  destruct sec as [[m'| |e]|]; try discriminate.
  destruct e3 as [e|]; try discriminate.
  intros _. now exists m, m'.
Qed.

Lemma complete_inv (t : Echo.turn) :
  Echo.complete t = true ->
  Echo.complete3 t = true /\ Echo.additional_raises t = None.
Proof.
  unfold Echo.complete. intros H. apply andb_true_iff in H. destruct H as [H3 Ha].
  split; [exact H3 | ]. now destruct (Echo.additional_raises t).
Qed.

Lemma complete_all3 (turns : list Echo.turn) :
  forallb Echo.complete turns = true -> forallb Echo.complete3 turns = true.
Proof.
  induction turns as [|t rest IH]; [reflexivity | ].
  cbn [forallb]. intros H. apply andb_true_iff in H. destruct H as [Hc Hrest].
  apply complete_inv in Hc. destruct Hc as [-> _]. now apply IH.
Qed.

Lemma loop2_app (turns1 : list Echo.turn) :
  forallb Echo.complete turns1 = true ->
  forall turns2 outbox,
    Echo.loop2 (turns1 ++ turns2) outbox =
      Echo.loop2 turns2 (outbox ++ flat_map Echo.round2 turns1).
Proof.
  induction turns1 as [|t rest IH]; intros Hall turns2 outbox.
  - cbn. now rewrite app_nil_r.
  - cbn [forallb] in Hall. apply andb_true_iff in Hall. destruct Hall as [Hc Hrest].
    destruct (complete_inv t Hc) as [Hc3 Ha].
    destruct (complete3_inv t Hc3) as (m & m' & Hb & Hf & He & Hs & Hl).
    cbn [app Echo.loop2 flat_map]. unfold Echo.round2. rewrite Hb, Hf, He, Ha, Hs, Hl.
    rewrite (IH Hrest). f_equal. rewrite <- !app_assoc. reflexivity.
Qed.

Lemma loop3_app (turns1 : list Echo.turn) :
  forallb Echo.complete3 turns1 = true ->
  forall turns2 outbox,
    Echo.loop3 (turns1 ++ turns2) outbox =
      Echo.loop3 turns2 (outbox ++ flat_map Echo.round3 turns1).
Proof.
  induction turns1 as [|t rest IH]; intros Hall turns2 outbox.
  - cbn. now rewrite app_nil_r.
  - cbn [forallb] in Hall. apply andb_true_iff in Hall. destruct Hall as [Hc Hrest].
    destruct (complete3_inv t Hc) as (m & m' & Hb & Hf & He & Hs & Hl).
    cbn [app Echo.loop3 flat_map]. unfold Echo.round3. rewrite Hb, Hf, He, Hs, Hl.
    rewrite (IH Hrest). f_equal. rewrite <- !app_assoc. reflexivity.
Qed.

(** X20. The echo handlers answer round by round. In a session where both
    messages of every turn arrive and every send returns, server-2.py sends,
    for each turn in order, the first message unchanged, then "Server
    received your message!", then the large text; server-3.py sends the
    first message unchanged, then the large text.  Nothing else is sent, and
    the handler ends suspended in [recv]. *)
Theorem X20_echo_rounds (turns : list Echo.turn) (outbox : list message) :
  (forallb Echo.complete turns = true ->
   Echo.echo2 turns outbox =
     (outbox ++ flat_map Echo.round2 turns, Ret AWAITING_FRAME)) /\
  (forallb Echo.complete3 turns = true ->
   Echo.echo3 turns outbox =
     (outbox ++ flat_map Echo.round3 turns, Ret AWAITING_FRAME)).
Proof.
  unfold Echo.echo2, Echo.echo3. split; intros Hall.
  - rewrite <- (app_nil_r turns) at 1. now rewrite (loop2_app turns Hall).
  - rewrite <- (app_nil_r turns) at 1. now rewrite (loop3_app turns Hall).
Qed.

Lemma X20_witness :
  forallb Echo.complete
    [Echo.mkTurn false (Received (Binary [x01; x02])) None None
       (Some (Received (Text "go"))) None] = true /\
  Echo.echo2
    [Echo.mkTurn false (Received (Binary [x01; x02])) None None
       (Some (Received (Text "go"))) None] [] =
    ([Binary [x01; x02]; Text "Server received your message!"; Text Echo.large_data],
     Ret AWAITING_FRAME) /\
  Echo.echo3
    [Echo.mkTurn false (Received (Binary [x01; x02])) None None
       (Some (Received (Text "go"))) None] [] =
    ([Binary [x01; x02]; Text Echo.large_data], Ret AWAITING_FRAME).
Proof.
  split; [reflexivity | ]. split.
  - exact (proj1 (X20_echo_rounds
                    [Echo.mkTurn false (Received (Binary [x01; x02])) None None
                       (Some (Received (Text "go"))) None] []) eq_refl).
  - exact (proj2 (X20_echo_rounds
                    [Echo.mkTurn false (Received (Binary [x01; x02])) None None
                       (Some (Received (Text "go"))) None] []) eq_refl).
Defined.

Lemma length_append_str (a b : string) :
  String.length (String.append a b) = (String.length a + String.length b)%nat.
Proof.
  induction a as [|c a IH]; cbn; [reflexivity | now rewrite IH].
Qed.

Lemma length_str_times (s : string) (n : nat) :
  String.length (str_times s n) = (n * String.length s)%nat.
Proof.
  induction n as [|n IH]; cbn [str_times]; [reflexivity | ].
  rewrite length_append_str, IH. cbn. reflexivity.
Qed.

Lemma get_str_times_A (n i : nat) :
  (i < n)%nat -> String.get i (str_times "A" n) = Some "A"%char.
Proof.
  revert i. induction n as [|n IH]; intros i Hi; [lia | ].
  cbn [str_times String.append]. destruct i as [|i]; [reflexivity | ].
  cbn [String.get]. apply IH. lia.
Qed.

(** X21. [s * n] on strings has [n * len(s)] characters for a positive
    [n] and is empty for [n <= 0]; the text sent at the end of every echo
    round, ["A" * 905000], therefore has 905000 characters (not a million),
    each of them "A". *)
Theorem X21_large_data (s : string) (n i : Z) :
  Z.of_nat (String.length (str_mul s n)) = Z.max 0 n * Z.of_nat (String.length s) /\
  Z.of_nat (String.length Echo.large_data) = 905000 /\
  (0 <= i < 905000 -> String.get (Z.to_nat i) Echo.large_data = Some "A"%char).
Proof.
  split; [ | split].
  - unfold str_mul. rewrite length_str_times. lia.
  - unfold Echo.large_data, str_mul. rewrite length_str_times.
    change (String.length "A") with 1%nat. lia.
  - intros Hi. unfold Echo.large_data, str_mul. apply get_str_times_A. lia.
Qed.

Lemma X21_witness :
  0 <= 904999 < 905000 /\
  String.get (Z.to_nat 904999) Echo.large_data = Some "A"%char.
Proof.
  assert (H : 0 <= 904999 < 905000) by lia.
  split; [exact H | ].
  exact (proj2 (proj2 (X21_large_data "" 0 904999)) H).
Defined.

Lemma loops_ignore_second (turns1 turns2 : list Echo.turn) :
  Forall2 Echo.same_but_second turns1 turns2 ->
  forall outbox,
    Echo.loop2 turns1 outbox = Echo.loop2 turns2 outbox /\
    Echo.loop3 turns1 outbox = Echo.loop3 turns2 outbox.
Proof.
  induction 1 as [|t1 t2 rest1 rest2 Hsame _ IH]; intros outbox; [now split | ].
  destruct Hsame as (Hb & Hf & He & Ha & Hl & Hs).
  cbn [Echo.loop2 Echo.loop3]. rewrite Hb, Hf, He, Ha, Hl.
  destruct (Echo.break_loop t2); [now split | ].
  destruct (Echo.first t2) as [m| |e]; try now split.
  destruct (Echo.echo_raises t2) as [e|]; [now split | ].
  destruct (Echo.second t1) as [[m1| |e1]|], (Echo.second t2) as [[m2| |e2]|];
    try discriminate Hs; try (now split); try (injection Hs as <-; now split);
    try contradiction.
  destruct (Echo.additional_raises t2) as [e|], (Echo.large_raises t2) as [e'|];
    split; try reflexivity; apply IH.
Qed.

(** X22. The echo handlers never look into the second message of a turn:
    two sessions that differ only in the contents of second messages are
    answered alike and end alike, in server-2.py and in server-3.py. *)
Theorem X22_second_message_unread
  (turns1 turns2 : list Echo.turn) (outbox : list message) :
  Forall2 Echo.same_but_second turns1 turns2 ->
  Echo.echo2 turns1 outbox = Echo.echo2 turns2 outbox /\
  Echo.echo3 turns1 outbox = Echo.echo3 turns2 outbox.
Proof.
  intros Hsame. unfold Echo.echo2, Echo.echo3.
  destruct (loops_ignore_second turns1 turns2 Hsame outbox) as [-> ->].
  split; reflexivity.
Qed.

Lemma X22_witness :
  Forall2 Echo.same_but_second
    [Echo.mkTurn false (Received (Text "a")) None None (Some (Received (Text "one"))) None]
    [Echo.mkTurn false (Received (Text "a")) None None (Some (Received (Binary [x02]))) None] /\
  Echo.echo2
    [Echo.mkTurn false (Received (Text "a")) None None (Some (Received (Text "one"))) None] [] =
    Echo.echo2
      [Echo.mkTurn false (Received (Text "a")) None None
         (Some (Received (Binary [x02]))) None] [].
Proof.
  assert (H : Forall2 Echo.same_but_second
                [Echo.mkTurn false (Received (Text "a")) None None
                   (Some (Received (Text "one"))) None]
                [Echo.mkTurn false (Received (Text "a")) None None
                   (Some (Received (Binary [x02]))) None]).
  { constructor; [ | constructor]. repeat split. }
  split; [exact H | ].
  exact (proj1 (X22_second_message_unread _ _ [] H)).
Defined.

(** X23. A client that leaves in the middle of a turn: after any number of
    complete turns, when the first message of a turn arrives, is echoed, and
    the second [recv] raises [ConnectionClosedError] or returns [None],
    server-2.py has echoed the message and sent "Server received your
    message!", server-3.py has echoed the message, neither sends the large
    text, both end closed without an exception, and later input is never
    read. *)
Theorem X23_echo_interrupted
  (turns1 : list Echo.turn) (t : Echo.turn) (rest : list Echo.turn)
  (m : message) (outbox : list message) :
  Echo.break_loop t = false ->
  Echo.first t = Received m ->
  Echo.echo_raises t = None ->
  Echo.second t = Some (RecvRaised ConnectionClosedError) \/
  Echo.second t = Some ReceivedNone ->
  (forallb Echo.complete turns1 = true ->
   Echo.additional_raises t = None ->
   Echo.echo2 (turns1 ++ t :: rest) outbox =
     (outbox ++ flat_map Echo.round2 turns1 ++ [m; Text Echo.additional_message],
      Ret CLOSED)) /\
  (forallb Echo.complete3 turns1 = true ->
   Echo.echo3 (turns1 ++ t :: rest) outbox =
     (outbox ++ flat_map Echo.round3 turns1 ++ [m], Ret CLOSED)).
Proof.
  intros Hb Hf He Hs. unfold Echo.echo2, Echo.echo3. split.
  - intros Hall Ha. rewrite (loop2_app turns1 Hall).
    cbn [Echo.loop2]. rewrite Hb, Hf, He, Ha.
    destruct Hs as [-> | ->]; cbn [Echo.guarded]; rewrite <- !app_assoc; reflexivity.
  - intros Hall. rewrite (loop3_app turns1 Hall).
    cbn [Echo.loop3]. rewrite Hb, Hf, He.
    destruct Hs as [-> | ->]; cbn [Echo.guarded]; rewrite <- !app_assoc; reflexivity.
Qed.

Lemma X23_witness :
  forallb Echo.complete
    [Echo.mkTurn false (Received (Text "a")) None None (Some (Received (Text "b"))) None]
    = true /\
  Echo.echo2
    ([Echo.mkTurn false (Received (Text "a")) None None (Some (Received (Text "b"))) None]
       ++ Echo.mkTurn false (Received (Binary [x07])) None None
            (Some (RecvRaised ConnectionClosedError)) None
       :: [Echo.mkTurn false (Received (Text "late")) None None None None]) [] =
    ([Text "a"; Text "Server received your message!"; Text Echo.large_data;
      Binary [x07]; Text "Server received your message!"], Ret CLOSED).
Proof.
  split; [reflexivity | ].
  exact (proj1 (X23_echo_interrupted
                  [Echo.mkTurn false (Received (Text "a")) None None
                     (Some (Received (Text "b"))) None]
                  (Echo.mkTurn false (Received (Binary [x07])) None None
                     (Some (RecvRaised ConnectionClosedError)) None)
                  [Echo.mkTurn false (Received (Text "late")) None None None None]
                  (Binary [x07]) [] eq_refl eq_refl eq_refl (or_introl eq_refl))
           eq_refl eq_refl).
Defined.
